(** * nltk.tokenize.stanford_segmenter: the StanfordSegmenter adapter

    A shallow embedding of [src/nltk/tokenize/stanford_segmenter.py].

    Python text ([str]) is modelled as [string], read as a sequence of code
    points below 256; byte strings as [list byte].  Attributes that may hold
    [None] are [option string].  Methods run in a state-and-exception monad
    over the adapter object and the part of the operating system they touch
    (files, the runtime options of nltk.internals, the child processes
    launched).  Python 3 semantics are followed where Python 2 differs. *)

From Stdlib Require Import String Ascii ZArith List Lia.
From Stdlib.Strings Require Import Byte.
From Stdlib Require Import DecimalString.
From stdpp Require Import base option list strings gmap.

Local Open Scope string_scope.

(** ** Python results and exceptions *)

(** The builtin exception classes the module can see. *)
Inductive exc_class : Type :=
  | LookupError
  | ValueError
  | TypeError
  | OSError
  | UnicodeError.

#[global] Instance exc_class_eq_dec : EqDecision exc_class.
Proof. solve_decision. Defined.

(** A raised exception: its class and [str(e)]. *)
Record exn : Type := Exn { exn_class : exc_class; exn_msg : string }.

Inductive PyResult (A : Type) : Type :=
  | Ok (a : A)
  | Raise (e : exn).
Arguments Ok {A} a.
Arguments Raise {A} e.

Definition is_ok {A} (r : PyResult A) : bool :=
  match r with Ok _ => true | Raise _ => false end.

Definition raises {A} (c : exc_class) (r : PyResult A) : Prop :=
  match r with Ok _ => False | Raise e => exn_class e = c end.

(** ** Text helpers of the Python runtime *)

(** [sep.join(xs)]: the items are copied out left to right, each one after
    the first preceded by the separator. *)
Definition str_join (sep : string) (xs : list string) : string :=
  match xs with
  | [] => ""
  | x :: rest => fold_left (fun acc y => acc +:+ sep +:+ y) rest x
  end.

(** The line feed, code point 10. *)
Definition newline : string := String (ascii_of_N 10) "".

(** Truthiness of an optional text attribute: [None] and [''] are falsy. *)
Definition truthy (o : option string) : bool :=
  match o with
  | Some (String _ _) => true
  | _ => false
  end.

(** Substring test, [needle in hay]. *)
Fixpoint contains (needle hay : string) : bool :=
  String.prefix needle hay ||
  match hay with
  | EmptyString => false
  | String _ rest => contains needle rest
  end.

Definition dec_of_nat (n : nat) : string := NilZero.string_of_uint (Nat.to_uint n).
Definition dec_of_Z (z : Z) : string := NilZero.string_of_int (Z.to_int z).

Definition hex_digit (n : N) : ascii :=
  match n with
  | 0 => "0" | 1 => "1" | 2 => "2" | 3 => "3" | 4 => "4" | 5 => "5"
  | 6 => "6" | 7 => "7" | 8 => "8" | 9 => "9" | 10 => "a" | 11 => "b"
  | 12 => "c" | 13 => "d" | 14 => "e" | _ => "f"
  end%N%char.

(** Two lower-case hexadecimal digits of a code point below 256. *)
Definition hex2 (c : ascii) : string :=
  let n := N_of_ascii c in
  String (hex_digit (n / 16)) (String (hex_digit (n mod 16)) "").

(** [%x] of a code point below 256: no leading zero. *)
Definition hex_of_char (c : ascii) : string :=
  let n := N_of_ascii c in
  if (n <? 16)%N then String (hex_digit n) "" else hex2 c.

(** ** The [%] operator on a text format and one text argument

    Only the directives this module's format strings use are interpreted:
    [%s], [%%], and a [%] followed by a character CPython does not accept as
    flag, width, precision, length modifier or conversion.  A format that
    uses any other directive is outside the fragment ([FmtOther]). *)

Inductive fmt_outcome : Type :=
  | FmtText (s : string)
  | FmtRaise (e : exn)
  | FmtOther.

(** Characters CPython reads after [%] before rejecting the conversion. *)
Definition fmt_accepted : string := "-+ #0123456789*.(hlLdiouxXeEfFgGcrsa%".

Definition printable (c : ascii) : bool :=
  let n := N_of_ascii c in ((31 <=? n) && (n <=? 126))%N.

Definition unsupported_format_character (c : ascii) (idx : nat) : exn :=
  Exn ValueError
    ("unsupported format character '" +:+
     String (if printable c then c else "?"%char) "" +:+
     "' (0x" +:+ hex_of_char c +:+ ") at index " +:+ dec_of_nat idx).

(** [fmt_go arg used idx fmt]: [used] tells whether the argument was
    consumed, [idx] is the position of the head of [fmt] in the format. *)
Fixpoint fmt_go (arg : string) (used : bool) (idx : nat) (fmt : string)
  : fmt_outcome :=
  match fmt with
  | EmptyString =>
      if used then FmtText ""
      else FmtRaise (Exn TypeError
             "not all arguments converted during string formatting")
  | String "%" EmptyString => FmtRaise (Exn ValueError "incomplete format")
  | String "%" (String c rest) =>
      if Ascii.eqb c "%" then
        match fmt_go arg used (2 + idx) rest with
        | FmtText s => FmtText (String "%" s)
        | o => o
        end
      else if used then
        FmtRaise (Exn TypeError "not enough arguments for format string")
      else if Ascii.eqb c "s" then
        match fmt_go arg true (2 + idx) rest with
        | FmtText s => FmtText (arg +:+ s)
        | o => o
        end
      else if contains (String c "") fmt_accepted then FmtOther
      else FmtRaise (unsupported_format_character c (1 + idx))
  | String c rest =>
      match fmt_go arg used (1 + idx) rest with
      | FmtText s => FmtText (String c s)
      | o => o
      end
  end.

Definition str_mod (fmt arg : string) : fmt_outcome := fmt_go arg false 0 fmt.

(** ** [json.dumps] with its default settings

    The values an [options] mapping can hold.  Floats are left out: their
    [repr] is floating-point printing. *)

#[local] Set Warnings "-register-all".

Inductive json : Type :=
  | JNull
  | JBool (b : bool)
  | JInt (z : Z)
  | JStr (s : string)
  | JList (items : list json)
  | JDict (items : list (string * json)).

(** The double-quote character, code point 34, and the backslash, 92. *)
Definition dquote : ascii := ascii_of_N 34.
Definition backslash : ascii := ascii_of_N 92.

(** One character of a JSON string under [ensure_ascii=True]. *)
Definition json_escape_char (c : ascii) : string :=
  let n := N_of_ascii c in
  if (n =? 34)%N then String backslash (String dquote "")
  else if (n =? 92)%N then String backslash (String backslash "")
  else if (n =? 10)%N then String backslash "n"
  else if (n =? 13)%N then String backslash "r"
  else if (n =? 9)%N then String backslash "t"
  else if (n =? 8)%N then String backslash "b"
  else if (n =? 12)%N then String backslash "f"
  else if ((32 <=? n) && (n <=? 126))%N then String c ""
  else String backslash "u00" +:+ hex2 c.

Fixpoint json_escape (s : string) : string :=
  match s with
  | EmptyString => ""
  | String c rest => json_escape_char c +:+ json_escape rest
  end.

Definition json_quote (s : string) : string :=
  String dquote (json_escape s) +:+ String dquote "".

Fixpoint json_dumps (v : json) : string :=
  match v with
  | JNull => "null"
  | JBool true => "true"
  | JBool false => "false"
  | JInt z => dec_of_Z z
  | JStr s => json_quote s
  | JList items =>
      "[" +:+ str_join ", " (List.map json_dumps items) +:+ "]"
  | JDict items =>
      "{" +:+
      str_join ", "
        (List.map (fun kv => json_quote (fst kv) +:+ ": " +:+ json_dumps (snd kv))
           items) +:+
      "}"
  end.

(** ** The adapter object *)

Record StanfordSegmenter : Type := {
  _stanford_jar : string;
  _java_class : option string;
  _model : option string;
  _sihan_corpora_dict : option string;
  _sihan_post_processing : string;
  _keep_whitespaces : string;
  _dict : option string;
  _encoding : option string;
  java_options : string;
  _options_cmd : string;
  (** absent until [segment_sents] first assigns it *)
  _input_file_path : option string
}.

Definition set_java_class (v : option string) (s : StanfordSegmenter) :=
  {| _stanford_jar := _stanford_jar s; _java_class := v; _model := _model s;
     _sihan_corpora_dict := _sihan_corpora_dict s;
     _sihan_post_processing := _sihan_post_processing s;
     _keep_whitespaces := _keep_whitespaces s; _dict := _dict s;
     _encoding := _encoding s; java_options := java_options s;
     _options_cmd := _options_cmd s; _input_file_path := _input_file_path s |}.

Definition set_model (v : option string) (s : StanfordSegmenter) :=
  {| _stanford_jar := _stanford_jar s; _java_class := _java_class s; _model := v;
     _sihan_corpora_dict := _sihan_corpora_dict s;
     _sihan_post_processing := _sihan_post_processing s;
     _keep_whitespaces := _keep_whitespaces s; _dict := _dict s;
     _encoding := _encoding s; java_options := java_options s;
     _options_cmd := _options_cmd s; _input_file_path := _input_file_path s |}.

Definition set_sihan_corpora_dict (v : option string) (s : StanfordSegmenter) :=
  {| _stanford_jar := _stanford_jar s; _java_class := _java_class s;
     _model := _model s; _sihan_corpora_dict := v;
     _sihan_post_processing := _sihan_post_processing s;
     _keep_whitespaces := _keep_whitespaces s; _dict := _dict s;
     _encoding := _encoding s; java_options := java_options s;
     _options_cmd := _options_cmd s; _input_file_path := _input_file_path s |}.

Definition set_sihan_post_processing (v : string) (s : StanfordSegmenter) :=
  {| _stanford_jar := _stanford_jar s; _java_class := _java_class s;
     _model := _model s; _sihan_corpora_dict := _sihan_corpora_dict s;
     _sihan_post_processing := v;
     _keep_whitespaces := _keep_whitespaces s; _dict := _dict s;
     _encoding := _encoding s; java_options := java_options s;
     _options_cmd := _options_cmd s; _input_file_path := _input_file_path s |}.

Definition set_dict (v : option string) (s : StanfordSegmenter) :=
  {| _stanford_jar := _stanford_jar s; _java_class := _java_class s;
     _model := _model s; _sihan_corpora_dict := _sihan_corpora_dict s;
     _sihan_post_processing := _sihan_post_processing s;
     _keep_whitespaces := _keep_whitespaces s; _dict := v;
     _encoding := _encoding s; java_options := java_options s;
     _options_cmd := _options_cmd s; _input_file_path := _input_file_path s |}.

Definition set_input_file_path (v : option string) (s : StanfordSegmenter) :=
  {| _stanford_jar := _stanford_jar s; _java_class := _java_class s;
     _model := _model s; _sihan_corpora_dict := _sihan_corpora_dict s;
     _sihan_post_processing := _sihan_post_processing s;
     _keep_whitespaces := _keep_whitespaces s; _dict := _dict s;
     _encoding := _encoding s; java_options := java_options s;
     _options_cmd := _options_cmd s; _input_file_path := v |}.

(** ** The world outside the object *)

(** One call of [nltk.internals.java]: the argument vector, the classpath
    and the runtime options in force when the child process was launched. *)
Record Launch : Type := {
  argv : list (option string);
  classpath : string;
  launch_options : string
}.

(** The object together with what its methods read and write outside it:
    the files, the runtime options held by nltk.internals, and the child
    processes launched so far (oldest first). *)
Record Machine : Type := {
  this : StanfordSegmenter;
  files : gmap string (list byte);
  runtime_options : string;
  launched : list Launch
}.

Definition with_this (f : StanfordSegmenter -> StanfordSegmenter) (m : Machine) :=
  {| this := f (this m); files := files m;
     runtime_options := runtime_options m; launched := launched m |}.

Definition with_files (f : gmap string (list byte) -> gmap string (list byte))
    (m : Machine) :=
  {| this := this m; files := f (files m);
     runtime_options := runtime_options m; launched := launched m |}.

Definition with_runtime_options (o : string) (m : Machine) :=
  {| this := this m; files := files m;
     runtime_options := o; launched := launched m |}.

Definition with_launch (l : Launch) (m : Machine) :=
  {| this := this m; files := files m;
     runtime_options := runtime_options m;
     launched := (launched m ++ [l])%list |}.

(** The collaborators imported from [os], [tempfile], the codec registry
    and [nltk.internals], none of which is part of this module.  A host
    fixes what they answer; the methods below are written against any host. *)
Record Host : Type := {
  (** [os.environ.get] *)
  environ : string -> option string;
  (** [os.pathsep] *)
  pathsep : string;
  (** [os.path.join] on two components *)
  path_join : string -> string -> string;
  (** [find_jar(name, path_to_jar, env_vars=...)] *)
  find_jar : string -> option string -> list string -> PyResult (option string);
  (** [find_file(filename, searchpath=..., env_vars=...)] *)
  find_file : string -> list string -> list string -> PyResult string;
  (** [find_dir(dirname, env_vars=...)] *)
  find_dir : string -> list string -> PyResult string;
  (** the list [_java_options] as bound by the import statement *)
  imported_java_options : list string;
  (** the name [tempfile.mkstemp] picks, given the files present *)
  mkstemp_name : gmap string (list byte) -> string;
  (** [text.encode(encoding)] *)
  codec_encode : string -> string -> PyResult (list byte);
  (** [data.decode(encoding)] *)
  codec_decode : string -> list byte -> PyResult string;
  (** the child process: from argument vector, classpath, runtime options
      and the files it can read, to captured (stdout, stderr), or the
      exception [nltk.internals.java] raises *)
  java_process :
    list (option string) -> string -> string -> gmap string (list byte) ->
    PyResult (list byte * list byte)
}.

(** ** The state-and-exception monad of the methods *)

Definition Py (A : Type) : Type := Machine -> Machine * PyResult A.

#[global] Instance py_ret : MRet Py := fun A a m => (m, Ok a).

#[global] Instance py_bind : MBind Py := fun A B f c m =>
  match c m with
  | (m', Ok a) => f a m'
  | (m', Raise e) => (m', Raise e)
  end.

Definition raise {A} (e : exn) : Py A := fun m => (m, Raise e).
Definition get : Py Machine := fun m => (m, Ok m).
Definition modify (f : Machine -> Machine) : Py unit := fun m => (f m, Ok tt).
Definition lift {A} (r : PyResult A) : Py A := fun m => (m, r).

(** [try: body / except LookupError: handler]; other classes propagate. *)
Definition try_except_LookupError {A} (body handler : Py A) : Py A := fun m =>
  match body m with
  | (m', Raise e) =>
      if decide (exn_class e = LookupError) then handler m' else (m', Raise e)
  | r => r
  end.

(** [raise cls(fmt % arg)]: evaluating the argument may itself raise, and
    then that exception is the one that propagates.  The last case does not
    arise for the formats of this module ([module_formats_interpreted]). *)
Definition raise_formatted {A} (cls : exc_class) (fmt arg : string) : Py A :=
  match str_mod fmt arg with
  | FmtText s => raise (Exn cls s)
  | FmtRaise e => raise e
  | FmtOther => raise (Exn ValueError fmt)
  end.

(** ** Operations on the world *)

(** Modelled from the spec: [nltk.internals.config_java] and the module
    global it assigns are not among the sources.  Following section 4.5
    ("applies runtimeOptions as process-runtime configuration"), the call
    makes the given option string the runtime configuration in force. *)
Definition config_java (options : string) : Py unit :=
  modify (with_runtime_options options).

(** [java(cmd, classpath=..., stdout=PIPE, stderr=PIPE)]: the process is
    launched with the runtime options then in force; the launch is recorded
    whether or not the call raises. *)
Definition java (H : Host) (cmd : list (option string)) (cp : string)
  : Py (list byte * list byte) := fun m =>
  (with_launch {| argv := cmd; classpath := cp;
                  launch_options := runtime_options m |} m,
   java_process H cmd cp (runtime_options m) (files m)).

(** [tempfile.mkstemp(text=True)]: an empty file under a new name. *)
Definition tempfile_mkstemp (H : Host) : Py string := fun m =>
  let path := mkstemp_name H (files m) in
  (with_files (insert path []) m, Ok path).

(** [fh.write(data); fh.close()] on the file opened at [path]. *)
Definition write_and_close (path : string) (data : list byte) : Py unit :=
  modify (with_files (insert path data)).

(** [os.unlink(path)]. *)
Definition os_unlink (path : option string) : Py unit := fun m =>
  match path with
  | None => (m, Raise (Exn TypeError "unlink: path should be string, not NoneType"))
  | Some p =>
      match files m !! p with
      | Some _ => (with_files (delete p) m, Ok tt)
      | None => (m, Raise (Exn OSError "No such file or directory"))
      end
  end.

(** [data.decode(encoding)] with the attribute as it is stored. *)
Definition bytes_decode (H : Host) (encoding : option string) (data : list byte)
  : Py string :=
  match encoding with
  | None => raise (Exn TypeError "decode() argument 'encoding' must be str, not None")
  | Some e => lift (codec_decode H e data)
  end.

(** ** The methods of [StanfordSegmenter] *)

(** The keyword arguments of the constructor ([verbose] only reaches the
    jar lookup and is dropped). *)
Record InitArgs : Type := {
  path_to_jar : option string;
  path_to_slf4j : option string;
  java_class : option string;
  path_to_model : option string;
  path_to_dict : option string;
  path_to_sihan_corpora_dict : option string;
  sihan_post_processing : string;
  keep_whitespaces : string;
  encoding : option string;
  options : option (list (string * json));
  init_java_options : string
}.

(** The defaults of the signature. *)
Definition default_args : InitArgs := {|
  path_to_jar := None; path_to_slf4j := None; java_class := None;
  path_to_model := None; path_to_dict := None;
  path_to_sihan_corpora_dict := None;
  sihan_post_processing := "false"; keep_whitespaces := "false";
  encoding := Some "UTF-8"; options := None; init_java_options := "-mx2g"
|}.

(** [','.join('{0}={1}'.format(key, json.dumps(val)) for key, val in
    options.items())]; a dict iterates in insertion order. *)
Definition options_cmd (opts : list (string * json)) : string :=
  str_join "," (List.map (fun kv => fst kv +:+ "=" +:+ json_dumps (snd kv)) opts).

Definition __init__ (H : Host) (a : InitArgs) : PyResult StanfordSegmenter :=
  match find_jar H "stanford-segmenter.jar" (path_to_jar a) ["STANFORD_SEGMENTER"] with
  | Raise e => Raise e
  | Ok stanford_segmenter =>
  match find_jar H "slf4j-api.jar" (path_to_slf4j a) ["SLF4J"; "STANFORD_SEGMENTER"] with
  | Raise e => Raise e
  | Ok slf4j =>
      let options := match options a with None => [] | Some o => o end in
      Ok {| _stanford_jar :=
              str_join (pathsep H) (omap id [stanford_segmenter; slf4j]);
            _java_class := java_class a;
            _model := path_to_model a;
            _sihan_corpora_dict := path_to_sihan_corpora_dict a;
            _sihan_post_processing := sihan_post_processing a;
            _keep_whitespaces := keep_whitespaces a;
            _dict := path_to_dict a;
            _encoding := encoding a;
            java_options := init_java_options a;
            _options_cmd := options_cmd options;
            _input_file_path := None |}
  end end.

(** Lines 95-97 of [default_config]: the data directory of the
    installation when [STANFORD_SEGMENTER] is set and not empty. *)
Definition search_path (H : Host) : list string :=
  match environ H "STANFORD_SEGMENTER" with
  | Some (String _ _ as root) => [path_join H root "data"]
  | _ => []
  end.

Definition default_config (H : Host) (lang : string) : Py unit :=
  let search_path := search_path H in
  modify (with_this (set_dict None));;
  modify (with_this (set_sihan_corpora_dict None));;
  modify (with_this (set_sihan_post_processing "false"));;
  model ←
    (if String.eqb lang "ar" then
       modify (with_this (set_java_class
         (Some "edu.stanford.nlp.international.arabic.process.ArabicSegmenter")));;
       mret "arabic-segmenter-atb+bn+arztrain.ser.gz"
     else if String.eqb lang "zh" then
       modify (with_this (set_java_class
         (Some "edu.stanford.nlp.ie.crf.CRFClassifier")));;
       modify (with_this (set_sihan_post_processing "true"));;
       let path_to_dict := "dict-chris6.ser.gz" in
       try_except_LookupError
         (d ← lift (find_file H path_to_dict search_path ["STANFORD_MODELS"]);
          modify (with_this (set_dict (Some d))))
         (raise_formatted LookupError
            "Could not find '%s' (tried using env. variables STANFORD_MODELS and <STANFORD_SEGMENTER>/data/)"
            path_to_dict);;
       let sihan_dir := "./data/" in
       try_except_LookupError
         (path_to_sihan_dir ← lift (find_dir H sihan_dir ["STANFORD_SEGMENTER"]);
          modify (with_this (set_sihan_corpora_dict
            (Some (path_join H path_to_sihan_dir sihan_dir)))))
         (raise_formatted LookupError
            "Could not find '%s' (tried using the STANFORD_SEGMENTER environment variable)"
            sihan_dir);;
       mret "pku.gz"
     else
       raise_formatted LookupError "Unsupported language '%'" lang);
  try_except_LookupError
    (p ← lift (find_file H model search_path ["STANFORD_MODELS"; "STANFORD_SEGMENTER"]);
     modify (with_this (set_model (Some p))))
    (raise_formatted LookupError
       "Could not find '%s' (tried using env. variables STANFORD_MODELS and <STANFORD_SEGMENTER>/data/)"
       model).

Definition _execute (H : Host) (cmd : list (option string)) : Py string :=
  m ← get;
  let encoding := _encoding (this m) in
  let cmd := (cmd ++ [Some "-inputEncoding"; encoding])%list in
  let _options_cmd := _options_cmd (this m) in
  let cmd :=
    if truthy (Some _options_cmd)
    then (cmd ++ [Some "-options"; Some _options_cmd])%list
    else cmd in
  let default_options := str_join " " (imported_java_options H) in
  config_java (java_options (this m));;
  out ← java H cmd (_stanford_jar (this m));
  stdout ← bytes_decode H encoding (fst out);
  config_java default_options;;
  mret stdout.

Definition segment_file (H : Host) (input_file_path : option string) : Py string :=
  m ← get;
  let cmd := [ _java_class (this m);
               Some "-loadClassifier"; _model (this m);
               Some "-keepAllWhitespaces"; Some (_keep_whitespaces (this m));
               Some "-textFile"; input_file_path ] in
  let cmd :=
    match _sihan_corpora_dict (this m) with
    | Some _ =>
        (cmd ++ [ Some "-serDictionary"; _dict (this m);
                  Some "-sighanCorporaDict"; _sihan_corpora_dict (this m);
                  Some "-sighanPostProcessing";
                  Some (_sihan_post_processing (this m)) ])%list
    | None => cmd
    end in
  stdout ← _execute H cmd;
  mret stdout.

(** Lines 169-179 of [segment_sents]: the sentences are written to a new
    temporary file, whose path is kept in [self._input_file_path]. *)
Definition stage_input (H : Host) (sentences : list (list string)) : Py string :=
  m ← get;
  let encoding := _encoding (this m) in
  path ← tempfile_mkstemp H;
  modify (with_this (set_input_file_path (Some path)));;
  let _input := str_join newline (List.map (str_join " ") sentences) in
  data ←
    match encoding with
    | Some (String _ _ as codec) => lift (codec_encode H codec _input)
    | _ => raise (Exn TypeError "a bytes-like object is required, not 'str'")
    end;
  write_and_close path data;;
  mret path.

Definition segment_sents (H : Host) (sentences : list (list string)) : Py string :=
  _ ← stage_input H sentences;
  m ← get;
  let cmd := [ _java_class (this m);
               Some "-loadClassifier"; _model (this m);
               Some "-keepAllWhitespaces"; Some (_keep_whitespaces (this m));
               Some "-textFile"; _input_file_path (this m) ] in
  let cmd :=
    match _sihan_corpora_dict (this m) with
    | Some _ =>
        (cmd ++ [ Some "-serDictionary"; _dict (this m);
                  Some "-sighanCorporaDict"; _sihan_corpora_dict (this m);
                  Some "-sighanPostProcessing";
                  Some (_sihan_post_processing (this m)) ])%list
    | None => cmd
    end in
  stdout ← _execute H cmd;
  m ← get;
  os_unlink (_input_file_path (this m));;
  mret stdout.

Definition segment (H : Host) (tokens : list string) : Py string :=
  segment_sents H [tokens].

(** ** Concrete hosts

    A POSIX host whose collaborators are simple enough to run: lookups
    succeed for the names listed, UTF-8 is the one codec, and the child
    process either echoes the text file or fails. *)

Definition posix_join (a b : string) : string :=
  if String.prefix "/" b then b
  else if String.eqb a "" then b
  else if String.eqb (String.substring (String.length a - 1) 1 a) "/" then a +:+ b
  else a +:+ "/" +:+ b.

Definition byte_of_N (n : N) : byte :=
  match Byte.of_N n with Some b => b | None => x00 end.

(** UTF-8 of code points below 256: one byte below 128, two bytes above. *)
Fixpoint utf8_encode (s : string) : list byte :=
  match s with
  | EmptyString => []
  | String c rest =>
      let n := N_of_ascii c in
      if (n <? 128)%N then byte_of_N n :: utf8_encode rest
      else byte_of_N (192 + n / 64) :: byte_of_N (128 + n mod 64) :: utf8_encode rest
  end.

Fixpoint utf8_decode (bs : list byte) : PyResult string :=
  match bs with
  | [] => Ok ""
  | b :: rest =>
      let n := Byte.to_N b in
      if (n <? 128)%N then
        match utf8_decode rest with
        | Ok s => Ok (String (ascii_of_N n) s)
        | Raise e => Raise e
        end
      else
        match rest with
        | b2 :: rest2 =>
            let n2 := Byte.to_N b2 in
            if ((194 <=? n) && (n <=? 195) && (128 <=? n2) && (n2 <? 192))%N then
              match utf8_decode rest2 with
              | Ok s => Ok (String (ascii_of_N ((n - 192) * 64 + (n2 - 128))) s)
              | Raise e => Raise e
              end
            else Raise (Exn UnicodeError "'utf-8' codec can't decode bytes")
        | [] => Raise (Exn UnicodeError "'utf-8' codec can't decode bytes")
        end
  end.

Definition is_utf8 (name : string) : bool :=
  String.eqb name "UTF-8" || String.eqb name "utf-8" || String.eqb name "utf8".

(** The first of [/tmp/tmp0], [/tmp/tmp1], ... that names no file. *)
Definition posix_mkstemp_name (fs : gmap string (list byte)) : string :=
  let candidates := List.map (fun n => "/tmp/tmp" +:+ dec_of_nat n) (seq 0 (S (size fs))) in
  match List.filter (fun p => bool_decide (fs !! p = None)) candidates with
  | p :: _ => p
  | [] => "/tmp/tmp"
  end.

(** The value following [flag] in an argument vector. *)
Fixpoint argv_value (flag : string) (cmd : list (option string)) : option string :=
  match cmd with
  | Some f :: ((v :: _) as rest) =>
      if String.eqb f flag then v else argv_value flag rest
  | _ :: rest => argv_value flag rest
  | [] => None
  end.

(** A child process that prints its text file back, or fails when
    [healthy] is off or the file cannot be read. *)
Definition echo_process (healthy : bool) (cmd : list (option string))
    (cp opts : string) (fs : gmap string (list byte))
  : PyResult (list byte * list byte) :=
  match argv_value "-textFile" cmd with
  | Some p =>
      match fs !! p with
      | Some data => if healthy then Ok (data, []) else Raise (Exn OSError "Java command failed")
      | None => Raise (Exn OSError "Java command failed")
      end
  | None => Raise (Exn OSError "Java command failed")
  end.

(** [name] is looked up among [present]; a hit resolves under [root]. *)
Definition lookup_under (root : string) (present : list string) (name : string)
  : PyResult string :=
  if bool_decide (name ∈ present) then Ok (posix_join root name)
  else Raise (Exn LookupError ("NLTK was unable to find " +:+ name)).

(** The host with the segmenter unpacked under [/opt/segmenter]: [present]
    lists the jars, model files and directories that exist there. *)
Definition posix_host (present : list string) (healthy : bool) : Host := {|
  environ := fun v =>
    if String.eqb v "STANFORD_SEGMENTER" then Some "/opt/segmenter" else None;
  pathsep := ":";
  path_join := posix_join;
  find_jar := fun name explicit _ =>
    match explicit with
    | Some p => Ok (Some p)
    | None =>
        match lookup_under "/opt/segmenter" present name with
        | Ok p => Ok (Some p)
        | Raise e => Raise e
        end
    end;
  find_file := fun name _ _ => lookup_under "/opt/segmenter/data" present name;
  find_dir := fun name _ =>
    match lookup_under "/opt/segmenter" present name with
    | Ok _ => Ok "/opt/segmenter"
    | Raise e => Raise e
    end;
  imported_java_options := [];
  mkstemp_name := posix_mkstemp_name;
  codec_encode := fun codec text =>
    if is_utf8 codec then Ok (utf8_encode text)
    else Raise (Exn LookupError ("unknown encoding: " +:+ codec));
  codec_decode := fun codec data =>
    if is_utf8 codec then utf8_decode data
    else Raise (Exn LookupError ("unknown encoding: " +:+ codec));
  java_process := echo_process healthy
|}.

Definition everything : list string :=
  [ "stanford-segmenter.jar"; "slf4j-api.jar"; "pku.gz"; "dict-chris6.ser.gz";
    "arabic-segmenter-atb+bn+arztrain.ser.gz"; "./data/" ].

(** The host with everything in place, and the same host with a child
    process that always fails. *)
Definition stocked_host : Host := posix_host everything true.
Definition failing_host : Host := posix_host everything false.

(** The host on which the corpora directory is missing. *)
Definition no_corpora_host : Host :=
  posix_host ["stanford-segmenter.jar"; "slf4j-api.jar"; "pku.gz";
              "dict-chris6.ser.gz"] true.

(** A machine freshly started around an object: no files, the default
    runtime options, nothing launched yet. *)
Definition boot (H : Host) (s : StanfordSegmenter) : Machine :=
  {| this := s; files := ∅;
     runtime_options := str_join " " (imported_java_options H);
     launched := [] |}.

(** The object [StanfordSegmenter()] builds on a host with both jars. *)
Definition plain_segmenter : StanfordSegmenter := {|
  _stanford_jar := "/opt/segmenter/stanford-segmenter.jar:/opt/segmenter/slf4j-api.jar";
  _java_class := None; _model := None; _sihan_corpora_dict := None;
  _sihan_post_processing := "false"; _keep_whitespaces := "false";
  _dict := None; _encoding := Some "UTF-8"; java_options := "-mx2g";
  _options_cmd := ""; _input_file_path := None
|}.

(** ** Vocabulary of the specification *)

(** The dictionary and the corpora directory are both set or both absent. *)
Definition paired (s : StanfordSegmenter) : Prop :=
  is_Some (_dict s) <-> is_Some (_sihan_corpora_dict s).

(** The two lookups [default_config] makes only for ['zh']. *)
Definition dict_lookup (H : Host) : PyResult string :=
  find_file H "dict-chris6.ser.gz" (search_path H) ["STANFORD_MODELS"].

Definition corpora_lookup (H : Host) : PyResult string :=
  find_dir H "./data/" ["STANFORD_SEGMENTER"].

(** The objects a caller can hold: one just constructed, or one on which
    [default_config] has been called, whatever the call's outcome. *)
Inductive reachable (H : Host) : StanfordSegmenter -> Prop :=
  | reachable_init a s :
      __init__ H a = Ok s -> reachable H s
  | reachable_config lang m :
      reachable H (this m) -> reachable H (this (default_config H lang m).1).

(** The objects on which the pairing can be relied on: constructed with
    both paths or neither, or left by a [default_config] call other than a
    ['zh'] call that finds the dictionary and then misses the corpora
    directory. *)
Inductive settled (H : Host) : StanfordSegmenter -> Prop :=
  | settled_init a s :
      __init__ H a = Ok s ->
      (is_Some (path_to_dict a) <-> is_Some (path_to_sihan_corpora_dict a)) ->
      settled H s
  | settled_config lang m :
      (lang = "zh" -> is_ok (dict_lookup H) = true ->
       is_ok (corpora_lookup H) = true) ->
      settled H (this (default_config H lang m).1).

(** An argument vector is the entry point followed by options, each a
    name and its value. *)
Fixpoint pair_up (xs : list (option string)) : list (option string * option string) :=
  match xs with
  | name :: value :: rest => (name, value) :: pair_up rest
  | _ => []
  end.

Definition option_pairs (cmd : list (option string))
  : list (option string * option string) := pair_up (tl cmd).

(** The values given to the option called [name], in order. *)
Definition option_values (name : string) (cmd : list (option string))
  : list (option string) :=
  List.map snd
    (List.filter (fun nv => bool_decide (fst nv = Some name)) (option_pairs cmd)).

(** The child processes a computation launches when run from [m]. *)
Definition new_launches {A} (c : Py A) (m : Machine) : list Launch :=
  drop (length (launched m)) (launched (c m).1).

(** The staged text in the words of section 4.4: one line per sentence,
    its tokens separated by one space; lines separated by one newline;
    nothing after the last line. *)
Fixpoint spaced (tokens : list string) : string :=
  match tokens with
  | [] => ""
  | [t] => t
  | t :: rest => t +:+ " " +:+ spaced rest
  end.

Fixpoint staged_text (sentences : list (list string)) : string :=
  match sentences with
  | [] => ""
  | [s] => spaced s
  | s :: rest => spaced s +:+ newline +:+ staged_text rest
  end.

(** The [-options] value in the words of section 4.3: [key=jsonValue]
    entries in insertion order, a comma between two entries and none after
    the last. *)
Fixpoint serialized_options (opts : list (string * json)) : string :=
  match opts with
  | [] => ""
  | [(k, v)] => k +:+ "=" +:+ json_dumps v
  | (k, v) :: rest => k +:+ "=" +:+ json_dumps v +:+ "," +:+ serialized_options rest
  end.

(** The machine after [default_config('zh')] on the stocked host, and the
    child process [segment_file('test.simp.utf8')] launches from it. *)
Definition chinese_machine : Machine :=
  (default_config stocked_host "zh" (boot stocked_host plain_segmenter)).1.

Definition chinese_launch : Launch := {|
  argv := [ Some "edu.stanford.nlp.ie.crf.CRFClassifier";
            Some "-loadClassifier"; Some "/opt/segmenter/data/pku.gz";
            Some "-keepAllWhitespaces"; Some "false";
            Some "-textFile"; Some "test.simp.utf8";
            Some "-serDictionary"; Some "/opt/segmenter/data/dict-chris6.ser.gz";
            Some "-sighanCorporaDict"; Some "/opt/segmenter/./data/";
            Some "-sighanPostProcessing"; Some "true";
            Some "-inputEncoding"; Some "UTF-8" ];
  classpath := "/opt/segmenter/stanford-segmenter.jar:/opt/segmenter/slf4j-api.jar";
  launch_options := "-mx2g"
|}.

(** The constructor call [StanfordSegmenter(options={'a': 1, 'b': 'x'})],
    the machine around the object it builds on the stocked host, and the
    child process [segment_file('test.simp.utf8')] launches from it. *)
Definition options_args : InitArgs := {|
  path_to_jar := None; path_to_slf4j := None; java_class := None;
  path_to_model := None; path_to_dict := None;
  path_to_sihan_corpora_dict := None;
  sihan_post_processing := "false"; keep_whitespaces := "false";
  encoding := Some "UTF-8";
  options := Some [("a", JInt 1); ("b", JStr "x")];
  init_java_options := "-mx2g"
|}.

Definition options_machine : Machine :=
  boot stocked_host
    (match __init__ stocked_host options_args with
     | Ok s => s
     | Raise _ => plain_segmenter
     end).

Definition options_launch : Launch := {|
  argv := [ None; Some "-loadClassifier"; None;
            Some "-keepAllWhitespaces"; Some "false";
            Some "-textFile"; Some "test.simp.utf8";
            Some "-inputEncoding"; Some "UTF-8";
            Some "-options";
            Some ("a=1,b=" +:+ String dquote "x" +:+ String dquote "") ];
  classpath := "/opt/segmenter/stanford-segmenter.jar:/opt/segmenter/slf4j-api.jar";
  launch_options := "-mx2g"
|}.

(** The command in the words of section 4.3, in the order the source
    appends: entry point, model, whitespace flag and text file always; the
    three Chinese options only with a corpora directory; the encoding
    always; [-options] only when the serialized options are not empty. *)
Definition build_command (s : StanfordSegmenter) (input : option string)
  : list (option string) :=
  ([ _java_class s;
     Some "-loadClassifier"; _model s;
     Some "-keepAllWhitespaces"; Some (_keep_whitespaces s);
     Some "-textFile"; input ] ++
   (if _sihan_corpora_dict s is Some d
    then [ Some "-serDictionary"; _dict s;
           Some "-sighanCorporaDict"; Some d;
           Some "-sighanPostProcessing"; Some (_sihan_post_processing s) ]
    else []) ++
   [ Some "-inputEncoding"; _encoding s ] ++
   (if _options_cmd s is String _ _
    then [ Some "-options"; Some (_options_cmd s) ]
    else []))%list.

(** The options that exist only for Chinese. *)
Definition is_chinese_option (nv : option string * option string) : bool :=
  bool_decide (nv.1 ∈ [ Some "-serDictionary"; Some "-sighanCorporaDict";
                        Some "-sighanPostProcessing" ]).

Definition chinese_options (cmd : list (option string))
  : list (option string * option string) :=
  List.filter is_chinese_option (option_pairs cmd).

(** ** The module's test fixture *)

(** How [setup_module] can end: it returns, it raises [SkipTest] with a
    message, or another exception passes through it. *)
Inductive setup_outcome : Type :=
  | SetupPassed
  | SkipTest (msg : string)
  | SetupRaised (e : exn).

(** Lines 220-228.  [seg] is local to the fixture, so the machine around it
    is a fresh one.  As in [raise_formatted], the last case of the
    formatting does not arise for this format. *)
Definition setup_module (H : Host) : setup_outcome :=
  let body : PyResult unit :=
    match __init__ H default_args with
    | Raise e => Raise e
    | Ok seg => ((default_config H "ar";; default_config H "zh") (boot H seg)).2
    end in
  match body with
  | Ok _ => SetupPassed
  | Raise e =>
      if decide (exn_class e = LookupError) then
        match str_mod "Tests for nltk.tokenize.stanford_segmenter skipped: %s"
                      (exn_msg e) with
        | FmtText s => SkipTest s
        | FmtRaise e' => SetupRaised e'
        | FmtOther =>
            SetupRaised (Exn ValueError
              "Tests for nltk.tokenize.stanford_segmenter skipped: %s")
        end
      else SetupRaised e
  end.

(** ** Further vocabulary *)

(** The lookup of the model file [default_config] ends with. *)
Definition model_lookup (H : Host) (model : string) : PyResult string :=
  find_file H model (search_path H) ["STANFORD_MODELS"; "STANFORD_SEGMENTER"].

(** The two jar lookups of the constructor. *)
Definition segmenter_jar_lookup (H : Host) (a : InitArgs) : PyResult (option string) :=
  find_jar H "stanford-segmenter.jar" (path_to_jar a) ["STANFORD_SEGMENTER"].

Definition slf4j_jar_lookup (H : Host) (a : InitArgs) : PyResult (option string) :=
  find_jar H "slf4j-api.jar" (path_to_slf4j a) ["SLF4J"; "STANFORD_SEGMENTER"].

(** How often a character occurs in a text. *)
Fixpoint count_char (c : ascii) (s : string) : nat :=
  match s with
  | EmptyString => 0
  | String x rest => (if Ascii.eqb x c then 1 else 0) + count_char c rest
  end.

(** No token of any sentence holds a line feed. *)
Definition newline_free (sentences : list (list string)) : Prop :=
  Forall (Forall (fun t => count_char (ascii_of_N 10) t = 0)) sentences.

(** Every character of the text is a printable ASCII one, 32 to 126. *)
Fixpoint printable_ascii (s : string) : bool :=
  match s with
  | EmptyString => true
  | String c rest =>
      ((32 <=? N_of_ascii c) && (N_of_ascii c <=? 126))%N && printable_ascii rest
  end.

(** Hosts and objects for the examples: no dictionary file; an object
    whose encoding is [None]; a codec the host does not know. *)
Definition no_dict_host : Host :=
  posix_host ["stanford-segmenter.jar"; "slf4j-api.jar"; "pku.gz"; "./data/"] true.

Definition no_encoding_segmenter : StanfordSegmenter := {|
  _stanford_jar := "/opt/segmenter/stanford-segmenter.jar:/opt/segmenter/slf4j-api.jar";
  _java_class := None; _model := None; _sihan_corpora_dict := None;
  _sihan_post_processing := "false"; _keep_whitespaces := "false";
  _dict := None; _encoding := None; java_options := "-mx2g";
  _options_cmd := ""; _input_file_path := None
|}.

Definition klingon_segmenter : StanfordSegmenter := {|
  _stanford_jar := "/opt/segmenter/stanford-segmenter.jar:/opt/segmenter/slf4j-api.jar";
  _java_class := None; _model := None; _sihan_corpora_dict := None;
  _sihan_post_processing := "false"; _keep_whitespaces := "false";
  _dict := None; _encoding := Some "klingon"; java_options := "-mx2g";
  _options_cmd := ""; _input_file_path := None
|}.

(** ** The command as a list of strings *)

(** The names of the options that exist only for Chinese. *)
Definition chinese_option_names : list (option string) :=
  [ Some "-serDictionary"; Some "-sighanCorporaDict";
    Some "-sighanPostProcessing" ].

(** What the command carries as it is given when the object has no
    corpora directory: the entry point, the model, the whitespace flag,
    the input path, the encoding and the options text. *)
Definition plain_values (s : StanfordSegmenter) (input : option string)
  : list (option string) :=
  [ _java_class s; _model s; Some (_keep_whitespaces s); input;
    _encoding s; Some (_options_cmd s) ].

(** How often [x] occurs in an argument vector, at any position. *)
Definition occurrences (x : option string) (cmd : list (option string)) : nat :=
  length (List.filter (fun y => bool_decide (y = x)) cmd).

(** The machines around an object built by [__init__] from [a], fresh or used
    since by any of the methods, whatever their outcome. *)
Inductive in_use (H : Host) (a : InitArgs) : Machine -> Prop :=
  | in_use_init s fs ro la :
      __init__ H a = Ok s ->
      in_use H a {| this := s; files := fs; runtime_options := ro;
                    launched := la |}
  | in_use_default_config lang m :
      in_use H a m -> in_use H a (default_config H lang m).1
  | in_use_segment_file input m :
      in_use H a m -> in_use H a (segment_file H input m).1
  | in_use_segment_sents sentences m :
      in_use H a m -> in_use H a (segment_sents H sentences m).1.

(** * Properties *)

(** ** Text helpers *)

Lemma string_app_assoc' (a b c : string) : (a +:+ b) +:+ c = a +:+ (b +:+ c).
Proof.
  induction a as [|x a IH]; [reflexivity|].
  change (String x ((a +:+ b) +:+ c) = String x (a +:+ b +:+ c)).
  now rewrite IH.
Qed.

Lemma concat_cons_app sep (a b : string) rest :
  String.concat sep ((a +:+ b) :: rest) = a +:+ String.concat sep (b :: rest).
Proof. destruct rest; simpl; [reflexivity | apply string_app_assoc']. Qed.

Lemma fold_join_concat sep rest : forall x,
  fold_left (fun acc y => acc +:+ sep +:+ y) rest x = String.concat sep (x :: rest).
Proof.
  induction rest as [|y rest IH]; intros x; [reflexivity|].
  cbn [fold_left]. rewrite IH, !concat_cons_app. reflexivity.
Qed.

(** Python's join is the textbook join. *)
Lemma str_join_concat sep xs : str_join sep xs = String.concat sep xs.
Proof. destruct xs; [reflexivity | apply fold_join_concat]. Qed.

Lemma str_join_space_spaced tokens : str_join " " tokens = spaced tokens.
Proof.
  rewrite str_join_concat.
  induction tokens as [|t [|u rest] IH]; [reflexivity..|].
  change (String.concat " " (t :: u :: rest))
    with (t +:+ " " +:+ String.concat " " (u :: rest)).
  now rewrite IH.
Qed.

Lemma str_join_staged_text sentences :
  str_join newline (List.map (str_join " ") sentences) = staged_text sentences.
Proof.
  rewrite str_join_concat.
  induction sentences as [|s [|s' rest] IH].
  - reflexivity.
  - simpl. apply str_join_space_spaced.
  - change (String.concat newline (List.map (str_join " ") (s :: s' :: rest)))
      with (str_join " " s +:+ newline +:+
            String.concat newline (List.map (str_join " ") (s' :: rest))).
    rewrite IH, str_join_space_spaced. reflexivity.
Qed.

Lemma options_cmd_serialized opts : options_cmd opts = serialized_options opts.
Proof.
  unfold options_cmd. rewrite str_join_concat.
  induction opts as [|[k v] [|kv rest] IH]; [reflexivity..|].
  change (serialized_options ((k, v) :: kv :: rest))
    with (k +:+ "=" +:+ json_dumps v +:+ "," +:+ serialized_options (kv :: rest)).
  rewrite <- IH. cbn [List.map String.concat fst snd].
  rewrite !string_app_assoc'. reflexivity.
Qed.

(** ** Running the methods in proofs *)

(** Unfold the monad, leaving texts and lookups as they are. *)
Ltac py_unfold :=
  cbv beta iota zeta delta [mbind py_bind mret py_ret modify get lift raise
    try_except_LookupError].

(** [raise cls(fmt % arg)] raises, one way or the other, and touches
    nothing. *)
Lemma raise_formatted_run {A} cls fmt arg m :
  exists e, @raise_formatted A cls fmt arg m = (m, Raise e).
Proof. unfold raise_formatted. destruct (str_mod fmt arg); eauto. Qed.

(** Split on the next lookup or handler of the goal. *)
Ltac py_case :=
  match goal with
  | |- context [find_file ?H ?n ?sp ?ev] =>
      destruct (find_file H n sp ev) as [?p|?e] eqn:?
  | |- context [find_dir ?H ?n ?ev] =>
      destruct (find_dir H n ev) as [?p|?e] eqn:?
  | |- context [decide (exn_class ?e = LookupError)] =>
      destruct (decide (exn_class e = LookupError))
  | |- context [@raise_formatted ?A ?c ?f ?a ?m] =>
      let e := fresh "e" in
      destruct (@raise_formatted_run A c f a m) as [e ->]
  end; py_unfold.

Ltac py_cases := py_unfold; repeat py_case.

(** The formats of this module stay inside the interpreted fragment. *)
Lemma module_formats_interpreted arg :
  str_mod "Unsupported language '%'" arg <> FmtOther /\
  str_mod "Could not find '%s' (tried using env. variables STANFORD_MODELS and <STANFORD_SEGMENTER>/data/)" arg <> FmtOther /\
  str_mod "Could not find '%s' (tried using the STANFORD_SEGMENTER environment variable)" arg <> FmtOther.
Proof. vm_compute. repeat split; discriminate. Qed.

(** The format of the unsupported-language message is rejected by [%],
    whatever the tag. *)
Lemma unsupported_language_format arg :
  str_mod "Unsupported language '%'" arg =
  FmtRaise (Exn ValueError "unsupported format character ''' (0x27) at index 23").
Proof. reflexivity. Qed.

(** ** Construction *)

(** [StanfordSegmenter()] on the stocked host. *)
Lemma init_default : __init__ stocked_host default_args = Ok plain_segmenter.
Proof. reflexivity. Qed.

(** ** Default language configuration *)

(** C3, as amended.  [default_config('ar')] clears the dictionary and the
    corpora directory and resets the post-processing flag to ['false'],
    whatever the object held before and whether or not the model lookup
    then succeeds. *)
Theorem default_config_ar_resets (H : Host) (m : Machine) :
  let s' := this (default_config H "ar" m).1 in
  _dict s' = None /\
  _sihan_corpora_dict s' = None /\
  _sihan_post_processing s' = "false" /\
  _java_class s' =
    Some "edu.stanford.nlp.international.arabic.process.ArabicSegmenter".
Proof.
  unfold default_config. change (String.eqb "ar" "ar") with true.
  py_cases; auto.
Qed.

(** C3, as stated, fails: after a Chinese configuration the flag is
    ['true'], and configuring Arabic does not leave it so. *)
Lemma default_config_ar_changes_post_processing :
  ~ (forall (H : Host) (m : Machine),
       _sihan_post_processing (this (default_config H "ar" m).1) =
       _sihan_post_processing (this m)).
Proof.
  intros C.
  specialize (C stocked_host
    (default_config stocked_host "zh" (boot stocked_host plain_segmenter)).1).
  vm_compute in C. discriminate C.
Qed.

(** C2, what the code does.  For a tag other than ['ar'] and ['zh'] the
    message is built with the format ["Unsupported language '%'"], whose
    directive is malformed: the [%] operator raises [ValueError] before any
    [LookupError] exists, and the message is the formatter's own. *)
Theorem default_config_unsupported_language (H : Host) (lang : string) (m : Machine) :
  lang <> "ar" -> lang <> "zh" ->
  (default_config H lang m).2 =
    Raise (Exn ValueError "unsupported format character ''' (0x27) at index 23").
Proof.
  intros Har Hzh. unfold default_config.
  apply String.eqb_neq in Har, Hzh. rewrite Har, Hzh.
  py_unfold. unfold raise_formatted. rewrite unsupported_language_format.
  reflexivity.
Qed.

Lemma default_config_unsupported_language_witness :
  (default_config stocked_host "fr" (boot stocked_host plain_segmenter)).2 =
    Raise (Exn ValueError "unsupported format character ''' (0x27) at index 23") /\
  contains "fr" "unsupported format character ''' (0x27) at index 23" = false.
Proof.
  split; [|reflexivity].
  apply default_config_unsupported_language; discriminate.
Defined.

(** C6.  When [default_config('zh')] returns, post-processing is ['true']
    and both fields hold what the two lookups found; when either lookup
    fails the call raises. *)
Theorem default_config_zh (H : Host) (m : Machine) :
  (forall m', default_config H "zh" m = (m', Ok tt) ->
     _sihan_post_processing (this m') = "true" /\
     exists d p,
       dict_lookup H = Ok d /\ corpora_lookup H = Ok p /\
       _dict (this m') = Some d /\
       _sihan_corpora_dict (this m') = Some (path_join H p "./data/")) /\
  (is_ok (dict_lookup H) = false \/ is_ok (corpora_lookup H) = false ->
     exists e, (default_config H "zh" m).2 = Raise e).
Proof.
  unfold dict_lookup, corpora_lookup, default_config.
  change (String.eqb "zh" "ar") with false.
  change (String.eqb "zh" "zh") with true.
  split.
  - intros m'. py_cases; intros Hrun; simplify_eq.
    split; [reflexivity | eauto 10].
  - intros Hfail. py_cases; cbn [snd]; eauto;
      destruct Hfail as [Hfail | Hfail]; discriminate Hfail.
Qed.

Lemma default_config_zh_witness :
  (_sihan_post_processing
     (this (default_config stocked_host "zh" (boot stocked_host plain_segmenter)).1)
     = "true" /\
   exists d p,
     dict_lookup stocked_host = Ok d /\ corpora_lookup stocked_host = Ok p /\
     _dict (this (default_config stocked_host "zh"
                    (boot stocked_host plain_segmenter)).1) = Some d /\
     _sihan_corpora_dict
       (this (default_config stocked_host "zh"
                (boot stocked_host plain_segmenter)).1) =
       Some (path_join stocked_host p "./data/")) /\
  (exists e,
     (default_config no_corpora_host "zh"
        (boot no_corpora_host plain_segmenter)).2 = Raise e).
Proof.
  split.
  - apply (proj1 (default_config_zh stocked_host
                    (boot stocked_host plain_segmenter))).
    reflexivity.
  - apply (proj2 (default_config_zh no_corpora_host
                    (boot no_corpora_host plain_segmenter))).
    right. reflexivity.
Defined.

(** C5, as amended.  The dictionary and the corpora directory are both set
    or both absent on an object constructed with both paths or with
    neither, and after every [default_config] call except a ['zh'] call
    that finds the dictionary and then fails to find the corpora
    directory. *)
Theorem settled_paired (H : Host) (s : StanfordSegmenter) :
  settled H s -> paired s.
Proof.
  intros [a s' Hinit Hargs | lang m Hzh]; unfold paired.
  - unfold __init__ in Hinit.
    destruct (find_jar H _ (path_to_jar a) _); [|discriminate].
    destruct (find_jar H _ (path_to_slf4j a) _); [|discriminate].
    injection Hinit as <-. exact Hargs.
  - unfold default_config.
    destruct (String.eqb lang "ar") eqn:Har; [py_cases; cbn; firstorder|].
    destruct (String.eqb lang "zh") eqn:Hlang.
    + apply String.eqb_eq in Hlang. specialize (Hzh Hlang).
      unfold dict_lookup, corpora_lookup in Hzh.
      py_cases; cbn;
        try (specialize (Hzh eq_refl); discriminate Hzh);
        split; eauto; intros [? [=]].
    + py_cases; cbn. firstorder.
Qed.

Lemma settled_paired_witness :
  paired (this (default_config stocked_host "zh"
                  (boot stocked_host plain_segmenter)).1).
Proof.
  apply (settled_paired stocked_host). apply settled_config.
  intros _ _. reflexivity.
Defined.

(** C5, as stated, fails: the constructor stores the two paths as given. *)
Lemma reachable_not_paired :
  ~ (forall (H : Host) (s : StanfordSegmenter), reachable H s -> paired s).
Proof.
  intros C.
  pose (H := stocked_host).
  pose (a := {| path_to_jar := None; path_to_slf4j := None; java_class := None;
                path_to_model := None;
                path_to_dict := Some "./data/dict-chris6.ser.gz";
                path_to_sihan_corpora_dict := None;
                sihan_post_processing := "false"; keep_whitespaces := "false";
                encoding := Some "UTF-8"; options := None;
                init_java_options := "-mx2g" |}).
  destruct (__init__ H a) as [s|e] eqn:Hinit; [|vm_compute in Hinit; discriminate].
  specialize (C H s (reachable_init H a s Hinit)).
  vm_compute in Hinit. injection Hinit as <-.
  destruct C as [C _]. destruct C as [x Hx]; [eexists; reflexivity|].
  discriminate Hx.
Qed.

(** The other way out of the pairing: a ['zh'] call that finds the
    dictionary but not the corpora directory raises with the dictionary
    already stored. *)
Lemma corpora_failure_unpairs :
  let r := default_config no_corpora_host "zh"
             (boot no_corpora_host plain_segmenter) in
  raises LookupError r.2 /\
  _dict (this r.1) = Some "/opt/segmenter/data/dict-chris6.ser.gz" /\
  _sihan_corpora_dict (this r.1) = None.
Proof. vm_compute. auto. Qed.

(** ** The process runner and the segmentation entry points *)

Ltac os_unfold :=
  unfold segment, segment_file, segment_sents, stage_input, _execute,
    config_java, java, bytes_decode, tempfile_mkstemp, write_and_close;
  py_unfold.

Ltac os_simpl :=
  cbn [fst snd this files runtime_options launched with_this with_files
       with_runtime_options with_launch set_input_file_path is_ok
       _stanford_jar _java_class _model _sihan_corpora_dict
       _sihan_post_processing _keep_whitespaces _dict _encoding java_options
       _options_cmd _input_file_path argv classpath launch_options].

(** Split on the next answer of the host. *)
Ltac os_case :=
  match goal with
  | |- context [java_process ?H ?c ?cp ?o ?fs] =>
      destruct (java_process H c cp o fs) as [[?out ?err]|?e] eqn:?
  | |- context [codec_decode ?H ?c ?d] =>
      destruct (codec_decode H c d) as [?text|?e] eqn:?
  | |- context [codec_encode ?H ?c ?t] =>
      destruct (codec_encode H c t) as [?data|?e] eqn:?
  end; py_unfold; os_simpl.

Lemma new_launches_one {A} (c : Py A) m l :
  launched (c m).1 = (launched m ++ [l])%list -> new_launches c m = [l].
Proof. unfold new_launches. intros ->. apply drop_app_length. Qed.

Lemma new_launches_none {A} (c : Py A) m :
  launched (c m).1 = launched m -> new_launches c m = [].
Proof. unfold new_launches. intros ->. apply drop_all. Qed.

(** What one run of [_execute] does to the machine. *)
Lemma execute_run (H : Host) (cmd : list (option string)) (m : Machine) :
  let r := _execute H cmd m in
  this r.1 = this m /\
  files r.1 = files m /\
  launched r.1 =
    (launched m ++
     [ {| argv := cmd ++ [Some "-inputEncoding"; _encoding (this m)] ++
                  (if _options_cmd (this m) is String _ _
                   then [Some "-options"; Some (_options_cmd (this m))]
                   else []);
          classpath := _stanford_jar (this m);
          launch_options := java_options (this m) |} ])%list /\
  runtime_options r.1 =
    (if is_ok r.2 then str_join " " (imported_java_options H)
     else java_options (this m)).
Proof.
  os_unfold. os_simpl.
  destruct (_options_cmd (this m)) as [|c oc] eqn:Hoc; cbn [truthy];
    rewrite ?app_nil_r, <- ?app_assoc;
    destruct (_encoding (this m)) as [codec|]; repeat os_case; auto.
Qed.

(** [segment_file] launches the command of section 4.3, once. *)
Lemma segment_file_launches (H : Host) (input : option string) (m : Machine) :
  new_launches (segment_file H input) m =
    [ {| argv := build_command (this m) input;
         classpath := _stanford_jar (this m);
         launch_options := java_options (this m) |} ].
Proof.
  apply new_launches_one. unfold segment_file. py_unfold.
  match goal with |- context [_execute H ?c m] =>
    destruct (execute_run H c m) as (_ & _ & Hl & _);
    destruct (_execute H c m) as [m' [out|e]] end;
    cbn [fst] in *; rewrite Hl; unfold build_command;
    destruct (_sihan_corpora_dict (this m)); rewrite <- ?app_assoc; reflexivity.
Qed.

(** What staging does: the file named by [mkstemp] holds the encoded
    text, or is left empty when encoding fails. *)
Lemma stage_input_run (H : Host) (sentences : list (list string)) (m : Machine) :
  let r := stage_input H sentences m in
  let path := mkstemp_name H (files m) in
  this r.1 = set_input_file_path (Some path) (this m) /\
  runtime_options r.1 = runtime_options m /\
  launched r.1 = launched m /\
  match _encoding (this m) with
  | Some (String _ _ as codec) =>
      match codec_encode H codec (staged_text sentences) with
      | Ok data => r.2 = Ok path /\ files r.1 = <[path := data]> (<[path := []]> (files m))
      | Raise e => r.2 = Raise e /\ files r.1 = <[path := []]> (files m)
      end
  | _ => is_ok r.2 = false /\ files r.1 = <[path := []]> (files m)
  end.
Proof.
  os_unfold. os_simpl. rewrite str_join_staged_text.
  destruct (_encoding (this m)) as [[|c codec]|]; py_unfold; os_simpl; auto.
  repeat os_case; auto.
Qed.

(** What one run of [segment_sents] leaves behind. *)
Lemma segment_sents_run (H : Host) (sentences : list (list string)) (m : Machine) :
  let r := segment_sents H sentences m in
  let path := mkstemp_name H (files m) in
  (if is_ok r.2 then files r.1 !! path = None
   else is_Some (files r.1 !! path)) /\
  launched r.1 =
    (if is_ok (stage_input H sentences m).2
     then launched m ++
          [ {| argv := build_command (this m) (Some path);
               classpath := _stanford_jar (this m);
               launch_options := java_options (this m) |} ]
     else launched m)%list.
Proof.
  intros r path. subst r. unfold segment_sents. py_unfold.
  destruct (stage_input_run H sentences m) as (Hthis & _ & Hl & Hfiles).
  fold path in Hthis, Hfiles.
  destruct (stage_input H sentences m) as [m1 [p|e]]; cbn [fst snd] in *.
  - assert (p = path /\ exists data, files m1 = <[path := data]> (<[path := []]> (files m)))
      as [-> [data Hfs]].
    { destruct (_encoding (this m)) as [[|c codec]|];
        try (destruct Hfiles as [[=] _]; fail).
      destruct (codec_encode H _ _); destruct Hfiles as [[=] ?]; eauto. }
    assert (forall input,
      build_command (this m1) input = build_command (this m) input) as Hcmd.
    { intros input. rewrite Hthis. reflexivity. }
    match goal with |- context [_execute H ?c m1] =>
      assert (argv_of : c = ([ _java_class (this m1);
               Some "-loadClassifier"; _model (this m1);
               Some "-keepAllWhitespaces"; Some (_keep_whitespaces (this m1));
               Some "-textFile"; Some path ] ++
             (if _sihan_corpora_dict (this m1) is Some d
              then [ Some "-serDictionary"; _dict (this m1);
                     Some "-sighanCorporaDict"; Some d;
                     Some "-sighanPostProcessing";
                     Some (_sihan_post_processing (this m1)) ]
              else []))%list)
        by (rewrite Hthis; cbn; destruct (_sihan_corpora_dict (this m));
            rewrite ?app_nil_r; reflexivity);
      destruct (execute_run H c m1) as (Ht & Hf & Hl' & _);
      destruct (_execute H c m1) as [m2 [out|e]];
      rewrite argv_of, <- app_assoc in Hl';
      fold (build_command (this m1) (Some path)) in Hl';
      rewrite Hcmd, Hl in Hl'; clear argv_of end;
      py_unfold; cbn [fst snd is_ok] in *.
    + unfold os_unlink. rewrite Ht, Hthis.
      cbn [_input_file_path set_input_file_path].
      rewrite Hf, Hfs, lookup_insert_eq. cbn [fst snd is_ok files launched with_files].
      rewrite Hf, Hfs, Hl', Hthis. split; [apply lookup_delete_eq | reflexivity].
    + rewrite Hf, Hfs, lookup_insert_eq, Hl', Hthis. split; [eauto | reflexivity].
  - split; [|exact Hl].
    cbn [is_ok].
    destruct (_encoding (this m)) as [[|c codec]|];
      try (destruct Hfiles as [_ ->]; rewrite lookup_insert_eq; eauto; fail).
    destruct (codec_encode H _ _); destruct Hfiles as [? ->];
      rewrite lookup_insert_eq; eauto.
Qed.

(** After staging succeeds, [segment_sents] launches the command of
    section 4.3 on the staged file, once. *)
Lemma segment_sents_launches (H : Host) (sentences : list (list string)) (m : Machine) :
  new_launches (segment_sents H sentences) m =
    if is_ok (stage_input H sentences m).2
    then [ {| argv := build_command (this m) (Some (mkstemp_name H (files m)));
              classpath := _stanford_jar (this m);
              launch_options := java_options (this m) |} ]
    else [].
Proof.
  destruct (segment_sents_run H sentences m) as [_ Hl].
  destruct (is_ok (stage_input H sentences m).2);
    [now apply new_launches_one | now apply new_launches_none].
Qed.

(** Every command either entry point launches is a [build_command]. *)
Lemma launches_are_built (H : Host) (m : Machine) input sentences (l : Launch) :
  l ∈ (new_launches (segment_file H input) m ++
       new_launches (segment_sents H sentences) m)%list ->
  exists i, argv l = build_command (this m) i.
Proof.
  rewrite segment_file_launches, segment_sents_launches, elem_of_app.
  intros [Hl | Hl].
  - apply list_elem_of_singleton in Hl as ->. eauto.
  - destruct (is_ok _); [|inversion Hl].
    apply list_elem_of_singleton in Hl as ->. eauto.
Qed.

Lemma chinese_options_build_command (s : StanfordSegmenter) input :
  chinese_options (build_command s input) =
    match _sihan_corpora_dict s with
    | None => []
    | Some d =>
        [ (Some "-serDictionary", _dict s);
          (Some "-sighanCorporaDict", Some d);
          (Some "-sighanPostProcessing", Some (_sihan_post_processing s)) ]
    end.
Proof.
  unfold build_command.
  destruct (_sihan_corpora_dict s), (_options_cmd s); reflexivity.
Qed.

Lemma option_values_build_command (s : StanfordSegmenter) input :
  option_values "-options" (build_command s input) =
    if _options_cmd s is String _ _ then [Some (_options_cmd s)] else [].
Proof.
  unfold build_command.
  destruct (_sihan_corpora_dict s), (_options_cmd s); reflexivity.
Qed.

Lemma serialized_options_cons kv rest :
  exists c t, serialized_options (kv :: rest) = String c t.
Proof.
  destruct kv as [[|c k] v]; destruct rest as [|[k' v'] rest];
    cbn [serialized_options]; unfold String.append; fold String.append; eauto.
Qed.

Lemma init_options_cmd (H : Host) (a : InitArgs) (s : StanfordSegmenter) :
  __init__ H a = Ok s ->
  _options_cmd s =
    serialized_options (match options a with Some o => o | None => [] end).
Proof.
  unfold __init__. intros Hinit.
  destruct (find_jar H _ (path_to_jar a) _); [|discriminate].
  destruct (find_jar H _ (path_to_slf4j a) _); [|discriminate].
  injection Hinit as <-. apply options_cmd_serialized.
Qed.

(** C4, what the code does.  When [_execute] raises, at the launch or at
    the decoding of the output, the runtime options are still those of the
    object: the call that restores the default was never reached. *)
Theorem execute_failure_keeps_override (H : Host) (cmd : list (option string))
    (m : Machine) :
  is_ok (_execute H cmd m).2 = false ->
  runtime_options (_execute H cmd m).1 = java_options (this m).
Proof.
  intros Hfail. destruct (execute_run H cmd m) as (_ & _ & _ & Hopts).
  rewrite Hopts, Hfail. reflexivity.
Qed.

Lemma execute_failure_keeps_override_witness :
  runtime_options
    (_execute failing_host [Some "-textFile"; Some "test.simp.utf8"]
       (boot failing_host plain_segmenter)).1 = "-mx2g".
Proof.
  apply (execute_failure_keeps_override failing_host
           [Some "-textFile"; Some "test.simp.utf8"]
           (boot failing_host plain_segmenter)).
  reflexivity.
Defined.

(** On the path that returns, the default is restored. *)
Lemma execute_success_restores_default (H : Host) (cmd : list (option string))
    (m : Machine) :
  is_ok (_execute H cmd m).2 = true ->
  runtime_options (_execute H cmd m).1 = str_join " " (imported_java_options H).
Proof.
  intros Hok. destruct (execute_run H cmd m) as (_ & _ & _ & Hopts).
  rewrite Hopts, Hok. reflexivity.
Qed.

(** C1, what the code does.  When [segment_sents] raises, the temporary
    file is still there: [os.unlink] comes after the call that raised. *)
Theorem segment_sents_failure_leaves_file (H : Host)
    (sentences : list (list string)) (m : Machine) :
  is_ok (segment_sents H sentences m).2 = false ->
  is_Some (files (segment_sents H sentences m).1 !! mkstemp_name H (files m)).
Proof.
  intros Hfail. destruct (segment_sents_run H sentences m) as [Hfile _].
  rewrite Hfail in Hfile. exact Hfile.
Qed.

Lemma segment_sents_failure_leaves_file_witness :
  is_Some
    (files (segment_sents failing_host [["a"; "b"]; ["c"]]
              (boot failing_host plain_segmenter)).1
     !! mkstemp_name failing_host (files (boot failing_host plain_segmenter))).
Proof.
  apply (segment_sents_failure_leaves_file failing_host [["a"; "b"]; ["c"]]
           (boot failing_host plain_segmenter)).
  reflexivity.
Defined.

(** On the path that returns, the temporary file is gone. *)
Lemma segment_sents_success_removes_file (H : Host)
    (sentences : list (list string)) (m : Machine) :
  is_ok (segment_sents H sentences m).2 = true ->
  files (segment_sents H sentences m).1 !! mkstemp_name H (files m) = None.
Proof.
  intros Hok. destruct (segment_sents_run H sentences m) as [Hfile _].
  rewrite Hok in Hfile. exact Hfile.
Qed.

(** The failing run on the host whose child process fails: the process
    error comes back, the staged file stays, and so does the override. *)
Lemma failing_run_evaluated :
  let r := segment_sents failing_host [["a"; "b"]; ["c"]]
             (boot failing_host plain_segmenter) in
  r.2 = Raise (Exn OSError "Java command failed") /\
  files r.1 !! "/tmp/tmp0" = Some [x61; x20; x62; x0a; x63] /\
  runtime_options r.1 = "-mx2g" /\
  runtime_options (boot failing_host plain_segmenter) = "".
Proof. vm_compute. auto. Qed.

(** C7.  Staging writes, to the file [mkstemp] names, the encoding of the
    text of section 4.4: tokens joined by one space, sentences joined by
    one newline, nothing after the last sentence. *)
Theorem stage_input_writes_staged_text (H : Host)
    (sentences : list (list string)) (m : Machine)
    (codec : string) (data : list byte) :
  _encoding (this m) = Some codec ->
  codec <> "" ->
  codec_encode H codec (staged_text sentences) = Ok data ->
  let r := stage_input H sentences m in
  let path := mkstemp_name H (files m) in
  r.2 = Ok path /\
  files r.1 !! path = Some data /\
  _input_file_path (this r.1) = Some path.
Proof.
  intros Henc Hne Hdata r path.
  destruct (stage_input_run H sentences m) as (Hthis & _ & _ & Hfiles).
  fold r path in Hthis, Hfiles. rewrite Henc in Hfiles.
  destruct codec as [|c codec]; [congruence|].
  rewrite Hdata in Hfiles. destruct Hfiles as [Hr Hfs].
  rewrite Hr, Hfs, Hthis, lookup_insert_eq. auto.
Qed.

Lemma stage_input_writes_staged_text_witness :
  staged_text [["a"; "b"]; ["c"]] = "a b" +:+ newline +:+ "c" /\
  (stage_input stocked_host [["a"; "b"]; ["c"]]
     (boot stocked_host plain_segmenter)).2
    = Ok (mkstemp_name stocked_host (files (boot stocked_host plain_segmenter))) /\
  files (stage_input stocked_host [["a"; "b"]; ["c"]]
           (boot stocked_host plain_segmenter)).1
    !! mkstemp_name stocked_host (files (boot stocked_host plain_segmenter))
    = Some [x61; x20; x62; x0a; x63] /\
  _input_file_path
    (this (stage_input stocked_host [["a"; "b"]; ["c"]]
             (boot stocked_host plain_segmenter)).1)
    = Some (mkstemp_name stocked_host (files (boot stocked_host plain_segmenter))).
Proof.
  split; [reflexivity|].
  apply (stage_input_writes_staged_text stocked_host [["a"; "b"]; ["c"]]
           (boot stocked_host plain_segmenter) "UTF-8"
           [x61; x20; x62; x0a; x63]).
  - reflexivity.
  - discriminate.
  - reflexivity.
Defined.

(** ** The command line *)

(** Without a corpora directory the launched command is the seven fixed
    arguments, the encoding and, when there are options, [-options]. *)
Lemma plain_command_evaluated :
  new_launches (segment_file stocked_host (Some "test.simp.utf8"))
    (boot stocked_host plain_segmenter) =
  [ {| argv := [ None; Some "-loadClassifier"; None;
                 Some "-keepAllWhitespaces"; Some "false";
                 Some "-textFile"; Some "test.simp.utf8";
                 Some "-inputEncoding"; Some "UTF-8" ];
       classpath :=
         "/opt/segmenter/stanford-segmenter.jar:/opt/segmenter/slf4j-api.jar";
       launch_options := "-mx2g" |} ].
Proof. rewrite segment_file_launches. reflexivity. Qed.

(** ** The single-sentence entry point *)

(** C10.  [segment(tokens)] is [segment_sents([tokens])]: same result,
    same effects; and the text staged for the one sentence is its tokens
    joined by spaces. *)
Theorem segment_is_segment_sents_singleton (H : Host) (tokens : list string)
    (m : Machine) :
  segment H tokens m = segment_sents H [tokens] m /\
  str_join newline (List.map (str_join " ") [tokens]) = spaced tokens.
Proof. split; [reflexivity | apply str_join_space_spaced]. Qed.

(** * Further properties of the code *)

(** ** [default_config] beyond the claims *)

(** What [raise cls(fmt % arg)] raises does not depend on the machine. *)
Lemma raise_formatted_uniform {A} cls fmt arg :
  exists e, forall m, @raise_formatted A cls fmt arg m = (m, Raise e).
Proof.
  unfold raise_formatted. destruct (str_mod fmt arg); eexists; intros m; reflexivity.
Qed.

(** As [py_case], with one exception per handler, shared by all runs. *)
Ltac py_case_uniform :=
  match goal with
  | |- context [find_file ?H ?n ?sp ?ev] =>
      destruct (find_file H n sp ev) as [?p|?e] eqn:?
  | |- context [find_dir ?H ?n ?ev] =>
      destruct (find_dir H n ev) as [?p|?e] eqn:?
  | |- context [decide (exn_class ?e = LookupError)] =>
      destruct (decide (exn_class e = LookupError))
  | |- context [@raise_formatted ?A ?c ?f ?a] =>
      let e := fresh "e" in
      let He := fresh "He" in
      destruct (@raise_formatted_uniform A c f a) as [e He]; rewrite !He
  end; py_unfold.

Ltac py_cases_uniform := py_unfold; repeat py_case_uniform.

(** Split on the language tag as the dispatch of [default_config] does. *)
Ltac lang_cases lang :=
  destruct (String.eqb lang "ar") eqn:?;
    [|destruct (String.eqb lang "zh") eqn:?].

(** The messages of the two formats, for any file name. *)
Lemma could_not_find_models_format arg :
  str_mod "Could not find '%s' (tried using env. variables STANFORD_MODELS and <STANFORD_SEGMENTER>/data/)" arg =
  FmtText ("Could not find '" +:+ arg +:+
           "' (tried using env. variables STANFORD_MODELS and <STANFORD_SEGMENTER>/data/)").
Proof. reflexivity. Qed.

(** X1.  [default_config] writes nothing but the entry point, the model,
    the dictionary, the corpora directory and the post-processing flag:
    the other attributes, the files, the runtime options and the list of
    launched processes are as before, whatever the tag and the outcome. *)
Theorem default_config_frame (H : Host) (lang : string) (m : Machine) :
  let m' := (default_config H lang m).1 in
  files m' = files m /\
  runtime_options m' = runtime_options m /\
  launched m' = launched m /\
  _stanford_jar (this m') = _stanford_jar (this m) /\
  _keep_whitespaces (this m') = _keep_whitespaces (this m) /\
  _encoding (this m') = _encoding (this m) /\
  java_options (this m') = java_options (this m) /\
  _options_cmd (this m') = _options_cmd (this m) /\
  _input_file_path (this m') = _input_file_path (this m).
Proof.
  unfold default_config. lang_cases lang; py_cases_uniform; cbn; auto 10.
Qed.

(** X2.  Whether [default_config] returns, and the exception it raises
    when it does not, depend on the tag and on the host only, not on what
    the object held. *)
Theorem default_config_outcome_stateless (H : Host) (lang : string)
    (m1 m2 : Machine) :
  (default_config H lang m1).2 = (default_config H lang m2).2.
Proof.
  unfold default_config. lang_cases lang; py_cases_uniform; reflexivity.
Qed.

(** X3.  A [default_config] call that returns leaves no trace of an
    earlier [default_config] call: calling it after another call, with any
    tag and any outcome, gives the machine and result of calling it
    alone. *)
Theorem default_config_success_overrides (H : Host) (l1 l2 : string)
    (m : Machine) :
  is_ok (default_config H l2 m).2 = true ->
  default_config H l2 (default_config H l1 m).1 = default_config H l2 m.
Proof.
  destruct m as [[] fs ro la]. unfold default_config.
  lang_cases l2; lang_cases l1; py_cases_uniform; cbn;
    try discriminate; reflexivity.
Qed.

Lemma default_config_success_overrides_witness :
  default_config stocked_host "ar"
    (default_config stocked_host "zh" (boot stocked_host plain_segmenter)).1 =
  default_config stocked_host "ar" (boot stocked_host plain_segmenter).
Proof.
  apply (default_config_success_overrides stocked_host "zh" "ar"
           (boot stocked_host plain_segmenter)).
  reflexivity.
Defined.

(** X4.  The model path is assigned only by a call that returns, and then
    it is what the lookup of the language's model file found; a call that
    raises leaves it as it was. *)
Theorem default_config_model_on_success (H : Host) (lang : string) (m : Machine) :
  let r := default_config H lang m in
  match r.2 with
  | Ok _ =>
      exists p,
        model_lookup H
          (if String.eqb lang "ar"
           then "arabic-segmenter-atb+bn+arztrain.ser.gz" else "pku.gz") = Ok p /\
        _model (this r.1) = Some p
  | Raise _ => _model (this r.1) = _model (this m)
  end.
Proof.
  unfold default_config, model_lookup.
  lang_cases lang; py_cases_uniform; cbn; eauto.
Qed.

(** X5.  When the dictionary lookup of ['zh'] raises, the call raises
    whatever the later lookups would find: a [LookupError] becomes a
    [LookupError] naming [dict-chris6.ser.gz], any other exception passes
    through unchanged.  The object is left with the Chinese entry point and
    post-processing ['true'] but neither dictionary nor corpora
    directory. *)
Theorem default_config_zh_dictionary_failure (H : Host) (m : Machine) (e : exn) :
  dict_lookup H = Raise e ->
  let r := default_config H "zh" m in
  r.2 = Raise (if decide (exn_class e = LookupError)
               then Exn LookupError
                      "Could not find 'dict-chris6.ser.gz' (tried using env. variables STANFORD_MODELS and <STANFORD_SEGMENTER>/data/)"
               else e) /\
  _java_class (this r.1) = Some "edu.stanford.nlp.ie.crf.CRFClassifier" /\
  _sihan_post_processing (this r.1) = "true" /\
  _dict (this r.1) = None /\
  _sihan_corpora_dict (this r.1) = None.
Proof.
  unfold dict_lookup, default_config. intros Hd.
  change (String.eqb "zh" "ar") with false.
  change (String.eqb "zh" "zh") with true.
  py_unfold. rewrite Hd. py_unfold.
  destruct (decide (exn_class e = LookupError)); [|auto].
  unfold raise_formatted. rewrite could_not_find_models_format.
  py_unfold. cbn. auto.
Qed.

Lemma default_config_zh_dictionary_failure_witness :
  (default_config no_dict_host "zh" (boot no_dict_host plain_segmenter)).2 =
    Raise (Exn LookupError
      "Could not find 'dict-chris6.ser.gz' (tried using env. variables STANFORD_MODELS and <STANFORD_SEGMENTER>/data/)").
Proof.
  apply (default_config_zh_dictionary_failure no_dict_host
           (boot no_dict_host plain_segmenter)
           (Exn LookupError "NLTK was unable to find dict-chris6.ser.gz")).
  reflexivity.
Defined.

(** X6.  When the model lookup of ['ar'] raises, a [LookupError] becomes a
    [LookupError] naming the Arabic model file and any other exception
    passes through unchanged; the entry point is already the Arabic one
    while the model path is still the old one. *)
Theorem default_config_ar_model_failure (H : Host) (m : Machine) (e : exn) :
  model_lookup H "arabic-segmenter-atb+bn+arztrain.ser.gz" = Raise e ->
  let r := default_config H "ar" m in
  r.2 = Raise (if decide (exn_class e = LookupError)
               then Exn LookupError
                      "Could not find 'arabic-segmenter-atb+bn+arztrain.ser.gz' (tried using env. variables STANFORD_MODELS and <STANFORD_SEGMENTER>/data/)"
               else e) /\
  _java_class (this r.1) =
    Some "edu.stanford.nlp.international.arabic.process.ArabicSegmenter" /\
  _model (this r.1) = _model (this m).
Proof.
  unfold model_lookup, default_config. intros Hm.
  change (String.eqb "ar" "ar") with true.
  py_unfold. rewrite Hm. py_unfold.
  destruct (decide (exn_class e = LookupError)); [|auto].
  unfold raise_formatted. rewrite could_not_find_models_format.
  py_unfold. cbn. auto.
Qed.

Lemma default_config_ar_model_failure_witness :
  (default_config no_corpora_host "ar" (boot no_corpora_host plain_segmenter)).2 =
    Raise (Exn LookupError
      "Could not find 'arabic-segmenter-atb+bn+arztrain.ser.gz' (tried using env. variables STANFORD_MODELS and <STANFORD_SEGMENTER>/data/)").
Proof.
  apply (default_config_ar_model_failure no_corpora_host
           (boot no_corpora_host plain_segmenter)
           (Exn LookupError
              "NLTK was unable to find arabic-segmenter-atb+bn+arztrain.ser.gz")).
  reflexivity.
Defined.

(** ** The runner and [segment_file] beyond the claims *)

(** [segment_file] changes neither the object nor the files. *)
Lemma segment_file_frame (H : Host) (input : option string) (m : Machine) :
  this (segment_file H input m).1 = this m /\
  files (segment_file H input m).1 = files m.
Proof.
  unfold segment_file. py_unfold.
  match goal with |- context [_execute H ?c m] =>
    destruct (execute_run H c m) as (Ht & Hf & _);
    destruct (_execute H c m) as [m' [out|e]] end; auto.
Qed.

(** X7.  One call of [_execute] calls [nltk.internals.java] exactly once,
    whether or not that call gets as far as a child process.  It hands it
    the caller's arguments first, then the encoding and the options, with
    the object's classpath, the runtime options in force at the call being
    the object's [java_options] whatever they were before.  [_execute]
    changes neither the object nor any file. *)
Theorem execute_calls_java_once (H : Host) (cmd : list (option string)) (m : Machine) :
  new_launches (_execute H cmd) m =
    [ {| argv := cmd ++ [Some "-inputEncoding"; _encoding (this m)] ++
                 (if _options_cmd (this m) is String _ _
                  then [Some "-options"; Some (_options_cmd (this m))]
                  else []);
         classpath := _stanford_jar (this m);
         launch_options := java_options (this m) |} ] /\
  this (_execute H cmd m).1 = this m /\
  files (_execute H cmd m).1 = files m.
Proof.
  destruct (execute_run H cmd m) as (Ht & Hf & Hl & _).
  split; [now apply new_launches_one | auto].
Qed.

(** X8.  [segment_file] returns the decoding, in the object's encoding,
    of what the child process prints on its standard output, the process
    being run on the command of section 4.3 under the object's
    [java_options] and seeing the files as they are.  What it prints on
    standard error is dropped; when the launch raises, that exception
    passes through unchanged. *)
Theorem segment_file_result (H : Host) (input : option string) (m : Machine) :
  (segment_file H input m).2 =
    match java_process H (build_command (this m) input) (_stanford_jar (this m))
            (java_options (this m)) (files m) with
    | Ok (out, _) =>
        match _encoding (this m) with
        | Some codec => codec_decode H codec out
        | None =>
            Raise (Exn TypeError
                     "decode() argument 'encoding' must be str, not None")
        end
    | Raise e => Raise e
    end.
Proof.
  unfold build_command. os_unfold. os_simpl.
  destruct (_sihan_corpora_dict (this m)) as [d|];
    destruct (_options_cmd (this m)) as [|c oc]; cbn [truthy app];
    destruct (_encoding (this m)) as [codec|]; repeat os_case; reflexivity.
Qed.

(** X9.  After [segment_file] the runtime options are never what they
    were before the call: they are the default ones when it returned, and
    the object's [java_options] when it raised. *)
Theorem segment_file_runtime_options (H : Host) (input : option string)
    (m : Machine) :
  runtime_options (segment_file H input m).1 =
    if is_ok (segment_file H input m).2
    then str_join " " (imported_java_options H)
    else java_options (this m).
Proof.
  unfold segment_file. py_unfold.
  match goal with |- context [_execute H ?c m] =>
    destruct (execute_run H c m) as (_ & _ & _ & Hopts);
    destruct (_execute H c m) as [m' [out|e]] end; exact Hopts.
Qed.

(** X10.  On an object whose encoding is [None], [segment_file] never
    returns a result: it raises what [nltk.internals.java] raises when
    handed the command, whose [-inputEncoding] value is then [None], and
    if that call returns all the same, the [TypeError] of decoding with no
    encoding. *)
Theorem segment_file_without_encoding (H : Host) (input : option string)
    (m : Machine) :
  _encoding (this m) = None ->
  (segment_file H input m).2 =
    Raise
      match java_process H (build_command (this m) input)
              (_stanford_jar (this m)) (java_options (this m)) (files m) with
      | Ok _ =>
          Exn TypeError "decode() argument 'encoding' must be str, not None"
      | Raise e => e
      end /\
  option_values "-inputEncoding" (build_command (this m) input) = [None].
Proof.
  intros Henc. split.
  - unfold build_command. os_unfold. os_simpl. rewrite Henc.
    destruct (_sihan_corpora_dict (this m)) as [d|];
      destruct (_options_cmd (this m)) as [|c oc]; cbn [truthy app];
      repeat os_case; reflexivity.
  - unfold build_command. rewrite Henc.
    destruct (_sihan_corpora_dict (this m)) as [d|];
      destruct (_options_cmd (this m)) as [|c oc]; reflexivity.
Qed.

Lemma segment_file_without_encoding_witness :
  (segment_file stocked_host (Some "test.simp.utf8")
     {| this := no_encoding_segmenter;
        files := {[ "test.simp.utf8" := [x61] ]};
        runtime_options := "";
        launched := [] |}).2 =
    Raise (Exn TypeError "decode() argument 'encoding' must be str, not None").
Proof.
  etrans.
  - apply (segment_file_without_encoding stocked_host (Some "test.simp.utf8")
             {| this := no_encoding_segmenter;
                files := {[ "test.simp.utf8" := [x61] ]};
                runtime_options := "";
                launched := [] |}).
    reflexivity.
  - vm_compute. reflexivity.
Defined.

(** X11.  After a [default_config('zh')] that returns, [segment_file]
    launches the Chinese classifier on the model, dictionary and corpora
    directory the lookups found, with post-processing ['true']; the
    whitespace flag, the encoding, the options, the classpath and the
    [java_options] are those the object had before. *)
Theorem chinese_command_line (H : Host) (m m1 : Machine) (input : option string) :
  default_config H "zh" m = (m1, Ok tt) ->
  exists d p mo,
    dict_lookup H = Ok d /\ corpora_lookup H = Ok p /\
    model_lookup H "pku.gz" = Ok mo /\
    new_launches (segment_file H input) m1 =
      [ {| argv :=
             [ Some "edu.stanford.nlp.ie.crf.CRFClassifier";
               Some "-loadClassifier"; Some mo;
               Some "-keepAllWhitespaces"; Some (_keep_whitespaces (this m));
               Some "-textFile"; input;
               Some "-serDictionary"; Some d;
               Some "-sighanCorporaDict"; Some (path_join H p "./data/");
               Some "-sighanPostProcessing"; Some "true";
               Some "-inputEncoding"; _encoding (this m) ] ++
             (if _options_cmd (this m) is String _ _
              then [Some "-options"; Some (_options_cmd (this m))]
              else []);
           classpath := _stanford_jar (this m);
           launch_options := java_options (this m) |} ].
Proof.
  unfold dict_lookup, corpora_lookup, model_lookup, default_config.
  change (String.eqb "zh" "ar") with false.
  change (String.eqb "zh" "zh") with true.
  py_cases; intros Hrun; simplify_eq.
  do 3 eexists. repeat (split; [reflexivity|]).
  rewrite segment_file_launches. reflexivity.
Qed.

Lemma chinese_command_line_witness :
  exists d p mo,
    dict_lookup stocked_host = Ok d /\ corpora_lookup stocked_host = Ok p /\
    model_lookup stocked_host "pku.gz" = Ok mo /\
    new_launches (segment_file stocked_host (Some "test.simp.utf8")) chinese_machine =
      [ {| argv :=
             [ Some "edu.stanford.nlp.ie.crf.CRFClassifier";
               Some "-loadClassifier"; Some mo;
               Some "-keepAllWhitespaces"; Some "false";
               Some "-textFile"; Some "test.simp.utf8";
               Some "-serDictionary"; Some d;
               Some "-sighanCorporaDict"; Some (path_join stocked_host p "./data/");
               Some "-sighanPostProcessing"; Some "true";
               Some "-inputEncoding"; Some "UTF-8" ] ++ [];
           classpath :=
             "/opt/segmenter/stanford-segmenter.jar:/opt/segmenter/slf4j-api.jar";
           launch_options := "-mx2g" |} ].
Proof.
  apply (chinese_command_line stocked_host (boot stocked_host plain_segmenter)
           chinese_machine (Some "test.simp.utf8")).
  reflexivity.
Defined.

(** X12.  After a [default_config('ar')] that returns, [segment_file]
    launches the Arabic segmenter on the model the lookup found, with none
    of the Chinese options, whatever the object was configured for
    before. *)
Theorem arabic_command_line (H : Host) (m m1 : Machine) (input : option string) :
  default_config H "ar" m = (m1, Ok tt) ->
  exists mo,
    model_lookup H "arabic-segmenter-atb+bn+arztrain.ser.gz" = Ok mo /\
    new_launches (segment_file H input) m1 =
      [ {| argv :=
             [ Some "edu.stanford.nlp.international.arabic.process.ArabicSegmenter";
               Some "-loadClassifier"; Some mo;
               Some "-keepAllWhitespaces"; Some (_keep_whitespaces (this m));
               Some "-textFile"; input;
               Some "-inputEncoding"; _encoding (this m) ] ++
             (if _options_cmd (this m) is String _ _
              then [Some "-options"; Some (_options_cmd (this m))]
              else []);
           classpath := _stanford_jar (this m);
           launch_options := java_options (this m) |} ].
Proof.
  unfold model_lookup, default_config.
  change (String.eqb "ar" "ar") with true.
  py_cases; intros Hrun; simplify_eq.
  eexists. split; [reflexivity|].
  rewrite segment_file_launches. reflexivity.
Qed.

Lemma arabic_command_line_witness :
  exists mo,
    model_lookup stocked_host "arabic-segmenter-atb+bn+arztrain.ser.gz" = Ok mo /\
    new_launches (segment_file stocked_host (Some "test.simp.utf8"))
      (default_config stocked_host "ar" chinese_machine).1 =
      [ {| argv :=
             [ Some "edu.stanford.nlp.international.arabic.process.ArabicSegmenter";
               Some "-loadClassifier"; Some mo;
               Some "-keepAllWhitespaces"; Some "false";
               Some "-textFile"; Some "test.simp.utf8";
               Some "-inputEncoding"; Some "UTF-8" ] ++ [];
           classpath :=
             "/opt/segmenter/stanford-segmenter.jar:/opt/segmenter/slf4j-api.jar";
           launch_options := "-mx2g" |} ].
Proof.
  apply (arabic_command_line stocked_host chinese_machine
           (default_config stocked_host "ar" chinese_machine).1
           (Some "test.simp.utf8")).
  reflexivity.
Defined.

(** ** [segment_sents] beyond the claims *)

(** When staging raises, [segment_sents] stops there. *)
Lemma segment_sents_stage_failure (H : Host) (sentences : list (list string))
    (m : Machine) (e : exn) :
  (stage_input H sentences m).2 = Raise e ->
  segment_sents H sentences m = ((stage_input H sentences m).1, Raise e).
Proof.
  unfold segment_sents. py_unfold.
  destruct (stage_input H sentences m) as [m1 [p|e']]; cbn [snd fst]; congruence.
Qed.

(** X13.  Once the input is staged, [segment_sents] is [segment_file] on
    the staged file: same result, and the same machine except that the
    staged file is removed when the call returned. *)
Theorem segment_sents_is_segment_file_on_staged (H : Host)
    (sentences : list (list string)) (m m1 : Machine) (p : string) :
  stage_input H sentences m = (m1, Ok p) ->
  segment_sents H sentences m =
    (if is_ok (segment_file H (Some p) m1).2
     then with_files (delete p) (segment_file H (Some p) m1).1
     else (segment_file H (Some p) m1).1,
     (segment_file H (Some p) m1).2).
Proof.
  intros Hstage.
  destruct (stage_input_run H sentences m) as (Hthis & _ & _ & Hfiles).
  rewrite Hstage in Hthis, Hfiles. cbn [fst snd] in Hthis, Hfiles.
  assert (p = mkstemp_name H (files m) /\ is_Some (files m1 !! p)) as [Hp Hfile].
  { destruct (_encoding (this m)) as [[|c codec]|];
      try (destruct Hfiles as [[=] _]; fail).
    destruct (codec_encode H _ _); destruct Hfiles as [[=] ->].
    subst p. rewrite lookup_insert_eq. eauto. }
  assert (_input_file_path (this m1) = Some p) as Hpath
    by (rewrite Hthis, Hp; reflexivity).
  unfold segment_sents, segment_file. py_unfold. rewrite Hstage. py_unfold.
  rewrite Hpath.
  match goal with |- context [_execute H ?c m1] =>
    destruct (execute_run H c m1) as (Ht & Hf & _);
    destruct (_execute H c m1) as [m2 [out|e]] end;
    py_unfold; cbn [fst snd is_ok] in *; [|reflexivity].
  unfold os_unlink. rewrite Ht, Hpath, Hf.
  destruct Hfile as [data ->]. reflexivity.
Qed.

Lemma segment_sents_is_segment_file_on_staged_witness :
  segment_sents stocked_host [["a"; "b"]; ["c"]] (boot stocked_host plain_segmenter) =
    (if is_ok (segment_file stocked_host (Some "/tmp/tmp0")
                 (stage_input stocked_host [["a"; "b"]; ["c"]]
                    (boot stocked_host plain_segmenter)).1).2
     then with_files (delete "/tmp/tmp0")
            (segment_file stocked_host (Some "/tmp/tmp0")
               (stage_input stocked_host [["a"; "b"]; ["c"]]
                  (boot stocked_host plain_segmenter)).1).1
     else (segment_file stocked_host (Some "/tmp/tmp0")
             (stage_input stocked_host [["a"; "b"]; ["c"]]
                (boot stocked_host plain_segmenter)).1).1,
     (segment_file stocked_host (Some "/tmp/tmp0")
        (stage_input stocked_host [["a"; "b"]; ["c"]]
           (boot stocked_host plain_segmenter)).1).2).
Proof.
  apply (segment_sents_is_segment_file_on_staged stocked_host [["a"; "b"]; ["c"]]
           (boot stocked_host plain_segmenter)).
  reflexivity.
Defined.

(** The files after [segment_sents]: the temporary file is removed when
    the call returned, and holds something when it raised; nothing else
    moved. *)
Lemma segment_sents_files (H : Host) (sentences : list (list string)) (m : Machine) :
  let r := segment_sents H sentences m in
  let path := mkstemp_name H (files m) in
  if is_ok r.2 then files r.1 = delete path (files m)
  else exists data, files r.1 = <[path := data]> (files m).
Proof.
  intros r path. subst r.
  destruct (stage_input_run H sentences m) as (_ & _ & _ & Hfiles).
  fold path in Hfiles.
  destruct (stage_input H sentences m) as [m1 [p|e]] eqn:Hstage.
  - rewrite (segment_sents_is_segment_file_on_staged H sentences m m1 p Hstage).
    destruct (segment_file_frame H (Some p) m1) as [_ Hf].
    cbn [fst snd] in *.
    assert (p = path /\ exists data, files m1 = <[path := data]> (files m))
      as [-> [data Hfs]].
    { destruct (_encoding (this m)) as [[|c codec]|];
        try (destruct Hfiles as [[=] _]; fail).
      destruct (codec_encode H _ _); destruct Hfiles as [[=] ->].
      split; [assumption|]. eexists. apply insert_insert_eq. }
    destruct (is_ok (segment_file H (Some path) m1).2); cbn [files with_files].
    + rewrite Hf, Hfs. apply delete_insert_eq.
    + exists data. rewrite Hf. exact Hfs.
  - rewrite (segment_sents_stage_failure H sentences m e)
      by (rewrite Hstage; reflexivity).
    rewrite Hstage. cbn [fst snd is_ok] in *.
    destruct (_encoding (this m)) as [[|c codec]|];
      [| destruct (codec_encode H _ _) |];
      destruct Hfiles as [Hr ->]; try discriminate Hr;
      eexists; reflexivity.
Qed.

(** X14.  [segment_sents] touches no file but its temporary one: every
    other path holds after the call what it held before, whatever the
    outcome. *)
Theorem segment_sents_other_files (H : Host) (sentences : list (list string))
    (m : Machine) (p : string) :
  p <> mkstemp_name H (files m) ->
  files (segment_sents H sentences m).1 !! p = files m !! p.
Proof.
  intros Hp. pose proof (segment_sents_files H sentences m) as Hf.
  cbv zeta in Hf. destruct (is_ok (segment_sents H sentences m).2).
  - rewrite Hf. now apply lookup_delete_ne.
  - destruct Hf as [data ->]. now apply lookup_insert_ne.
Qed.

Lemma segment_sents_other_files_witness :
  files (segment_sents failing_host [["a"; "b"]; ["c"]]
           {| this := plain_segmenter;
              files := {[ "notes.txt" := [x61] ]};
              runtime_options := "";
              launched := [] |}).1 !! "notes.txt" = Some [x61].
Proof.
  etrans.
  - apply (segment_sents_other_files failing_host [["a"; "b"]; ["c"]]
             {| this := plain_segmenter;
                files := {[ "notes.txt" := [x61] ]};
                runtime_options := "";
                launched := [] |} "notes.txt").
    vm_compute. discriminate.
  - vm_compute. reflexivity.
Defined.

(** X15.  When [segment_sents] returns and the temporary name was free
    before the call, the files are exactly as they were. *)
Theorem segment_sents_return_restores_files (H : Host)
    (sentences : list (list string)) (m : Machine) :
  files m !! mkstemp_name H (files m) = None ->
  is_ok (segment_sents H sentences m).2 = true ->
  files (segment_sents H sentences m).1 = files m.
Proof.
  intros Hfresh Hok. pose proof (segment_sents_files H sentences m) as Hf.
  cbv zeta in Hf. rewrite Hok in Hf. rewrite Hf. now apply delete_id.
Qed.

Lemma segment_sents_return_restores_files_witness :
  files (segment_sents stocked_host [["a"; "b"]; ["c"]]
           (boot stocked_host plain_segmenter)).1 = ∅.
Proof.
  apply (segment_sents_return_restores_files stocked_host [["a"; "b"]; ["c"]]
           (boot stocked_host plain_segmenter)); reflexivity.
Defined.

(** X16.  On an object whose encoding is [None] or empty, [segment_sents]
    raises [TypeError] at the write, launches nothing, and leaves the
    temporary file behind, empty. *)
Theorem segment_sents_without_encoding (H : Host)
    (sentences : list (list string)) (m : Machine) :
  truthy (_encoding (this m)) = false ->
  let r := segment_sents H sentences m in
  r.2 = Raise (Exn TypeError "a bytes-like object is required, not 'str'") /\
  new_launches (segment_sents H sentences) m = [] /\
  files r.1 !! mkstemp_name H (files m) = Some [].
Proof.
  intros Henc r. subst r.
  assert ((stage_input H sentences m).2 =
          Raise (Exn TypeError "a bytes-like object is required, not 'str'") /\
          files (stage_input H sentences m).1 =
            <[mkstemp_name H (files m) := []]> (files m)) as [Hr Hf].
  { revert Henc. os_unfold. os_simpl.
    destruct (_encoding (this m)) as [[|c codec]|]; cbn [truthy];
      intros; try discriminate; py_unfold; os_simpl; auto. }
  rewrite segment_sents_launches, (segment_sents_stage_failure _ _ _ _ Hr), Hr.
  cbn [fst snd is_ok]. rewrite Hf, lookup_insert_eq. auto.
Qed.

Lemma segment_sents_without_encoding_witness :
  (segment_sents stocked_host [["a"; "b"]; ["c"]]
     (boot stocked_host no_encoding_segmenter)).2 =
    Raise (Exn TypeError "a bytes-like object is required, not 'str'") /\
  new_launches (segment_sents stocked_host [["a"; "b"]; ["c"]])
    (boot stocked_host no_encoding_segmenter) = [] /\
  files (segment_sents stocked_host [["a"; "b"]; ["c"]]
           (boot stocked_host no_encoding_segmenter)).1
    !! mkstemp_name stocked_host (files (boot stocked_host no_encoding_segmenter))
    = Some [].
Proof.
  apply (segment_sents_without_encoding stocked_host [["a"; "b"]; ["c"]]
           (boot stocked_host no_encoding_segmenter)).
  reflexivity.
Defined.

(** X17.  When the text cannot be encoded (unknown codec, character
    outside the codec), [segment_sents] raises the codec's exception
    unchanged, launches nothing, and leaves the temporary file behind,
    empty. *)
Theorem segment_sents_encode_failure (H : Host)
    (sentences : list (list string)) (m : Machine) (codec : string) (e : exn) :
  _encoding (this m) = Some codec ->
  codec <> "" ->
  codec_encode H codec (staged_text sentences) = Raise e ->
  let r := segment_sents H sentences m in
  r.2 = Raise e /\
  new_launches (segment_sents H sentences) m = [] /\
  files r.1 !! mkstemp_name H (files m) = Some [].
Proof.
  intros Henc Hne Hcodec r. subst r.
  destruct (stage_input_run H sentences m) as (_ & _ & _ & Hfiles).
  rewrite Henc in Hfiles. destruct codec as [|c codec]; [congruence|].
  rewrite Hcodec in Hfiles. destruct Hfiles as [Hr Hf].
  rewrite segment_sents_launches, (segment_sents_stage_failure _ _ _ _ Hr), Hr.
  cbn [fst snd is_ok]. rewrite Hf, lookup_insert_eq. auto.
Qed.

Lemma segment_sents_encode_failure_witness :
  (segment_sents stocked_host [["a"; "b"]; ["c"]]
     (boot stocked_host klingon_segmenter)).2 =
    Raise (Exn LookupError "unknown encoding: klingon") /\
  new_launches (segment_sents stocked_host [["a"; "b"]; ["c"]])
    (boot stocked_host klingon_segmenter) = [] /\
  files (segment_sents stocked_host [["a"; "b"]; ["c"]]
           (boot stocked_host klingon_segmenter)).1
    !! mkstemp_name stocked_host (files (boot stocked_host klingon_segmenter))
    = Some [].
Proof.
  apply (segment_sents_encode_failure stocked_host [["a"; "b"]; ["c"]]
           (boot stocked_host klingon_segmenter) "klingon"
           (Exn LookupError "unknown encoding: klingon")).
  - reflexivity.
  - discriminate.
  - reflexivity.
Defined.

(** X18.  Whatever its outcome, [segment_sents] changes one attribute of
    the object only: [_input_file_path], which from then on names the
    temporary file of this call, a file that is gone when the call
    returned. *)
Theorem segment_sents_object (H : Host) (sentences : list (list string))
    (m : Machine) :
  let r := segment_sents H sentences m in
  let path := mkstemp_name H (files m) in
  this r.1 = set_input_file_path (Some path) (this m) /\
  (if is_ok r.2 then files r.1 !! path = None else True).
Proof.
  intros r path. subst r. split.
  - destruct (stage_input_run H sentences m) as (Hthis & _).
    fold path in Hthis.
    destruct (stage_input H sentences m) as [m1 [p|e]] eqn:Hstage.
    + rewrite (segment_sents_is_segment_file_on_staged H sentences m m1 p Hstage).
      destruct (segment_file_frame H (Some p) m1) as [Ht _].
      cbn [fst] in *.
      destruct (is_ok (segment_file H (Some p) m1).2); cbn [this with_files];
        congruence.
    + rewrite (segment_sents_stage_failure H sentences m e)
        by (rewrite Hstage; reflexivity).
      rewrite Hstage. exact Hthis.
  - destruct (segment_sents_run H sentences m) as [Hfile _].
    fold path in Hfile. destruct (is_ok (segment_sents H sentences m).2); auto.
Qed.

(** ** Construction, the options text and the staged text *)

(** X19.  The constructor fails exactly when a jar lookup fails, with the
    exception of the first lookup that failed (the segmenter's before
    slf4j's).  Otherwise the classpath is the jars found, the segmenter's
    first, separated by [os.pathsep]; a lookup that yields [None] adds
    neither a path nor a separator.  The model, dictionary and corpora
    paths are stored as given, unchecked. *)
Theorem init_classpath (H : Host) (a : InitArgs) :
  match segmenter_jar_lookup H a, slf4j_jar_lookup H a with
  | Raise e, _ => __init__ H a = Raise e
  | Ok _, Raise e => __init__ H a = Raise e
  | Ok j1, Ok j2 =>
      exists s,
        __init__ H a = Ok s /\
        _stanford_jar s =
          match j1, j2 with
          | Some x, Some y => x +:+ pathsep H +:+ y
          | Some x, None => x
          | None, Some y => y
          | None, None => ""
          end /\
        _model s = path_to_model a /\
        _dict s = path_to_dict a /\
        _sihan_corpora_dict s = path_to_sihan_corpora_dict a
  end.
Proof.
  unfold segmenter_jar_lookup, slf4j_jar_lookup, __init__.
  destruct (find_jar H _ (path_to_jar a) _) as [j1|e]; [|reflexivity].
  destruct (find_jar H _ (path_to_slf4j a) _) as [j2|e]; [|reflexivity].
  eexists. split; [reflexivity|].
  destruct j1, j2; repeat split; reflexivity.
Qed.

Lemma printable_ascii_app (a b : string) :
  printable_ascii (a +:+ b) = printable_ascii a && printable_ascii b.
Proof.
  induction a as [|c a IH]; [reflexivity|].
  change (String c a +:+ b) with (String c (a +:+ b)).
  cbn [printable_ascii]. rewrite IH. apply andb_assoc.
Qed.

Lemma json_escape_char_printable (c : ascii) :
  printable_ascii (json_escape_char c) = true.
Proof. destruct c as [[] [] [] [] [] [] [] []]; reflexivity. Qed.

Lemma json_escape_printable (s : string) : printable_ascii (json_escape s) = true.
Proof.
  induction s as [|c s IH]; [reflexivity|].
  cbn [json_escape]. now rewrite printable_ascii_app, json_escape_char_printable.
Qed.

Lemma json_quote_printable (s : string) : printable_ascii (json_quote s) = true.
Proof.
  unfold json_quote. rewrite printable_ascii_app.
  change (printable_ascii (String dquote (json_escape s)))
    with (printable_ascii (json_escape s)).
  now rewrite json_escape_printable.
Qed.

Lemma dec_of_Z_printable (z : Z) : printable_ascii (dec_of_Z z) = true.
Proof.
  assert (forall u, printable_ascii (NilEmpty.string_of_uint u) = true) as Hu
    by (induction u; cbn; auto).
  assert (forall u, printable_ascii (NilZero.string_of_uint u) = true) as Hz
    by (intros [| | | | | | | | | |]; try reflexivity; apply Hu).
  unfold dec_of_Z, NilZero.string_of_int.
  destruct (Z.to_int z); [apply Hz|]. cbn [printable_ascii]. now rewrite Hz.
Qed.

Lemma concat_printable (sep : string) (xs : list string) :
  printable_ascii sep = true ->
  Forall (fun x => printable_ascii x = true) xs ->
  printable_ascii (str_join sep xs) = true.
Proof.
  intros Hsep Hxs. rewrite str_join_concat.
  induction Hxs as [|x [|y xs] Hx Hrest IH]; [reflexivity | exact Hx |].
  change (String.concat sep (x :: y :: xs))
    with (x +:+ sep +:+ String.concat sep (y :: xs)).
  now rewrite !printable_ascii_app, Hx, Hsep, IH.
Qed.

Lemma json_dumps_printable : forall v : json, printable_ascii (json_dumps v) = true.
Proof.
  fix IH 1. intros [|[]|z|s|items|items]; try reflexivity.
  - apply dec_of_Z_printable.
  - apply json_quote_printable.
  - cbn [json_dumps]. rewrite !printable_ascii_app, concat_printable; [reflexivity..|].
    induction items as [|v items IHitems]; constructor; [apply IH | exact IHitems].
  - cbn [json_dumps]. rewrite !printable_ascii_app, concat_printable; [reflexivity..|].
    induction items as [|[k v] items IHitems]; constructor; [|exact IHitems].
    cbn [fst snd]. now rewrite !printable_ascii_app, json_quote_printable, IH.
Qed.

(** X20.  When every key of the options mapping is printable ASCII, so is
    the whole [-options] text, whatever the values hold: [json.dumps]
    escapes every character of a value that is not. *)
Theorem options_cmd_printable (opts : list (string * json)) :
  Forall (fun kv => printable_ascii kv.1 = true) opts ->
  printable_ascii (options_cmd opts) = true.
Proof.
  intros Hkeys. unfold options_cmd. apply concat_printable; [reflexivity|].
  induction Hkeys as [|[k v] opts Hk _ IH]; constructor; [|exact IH].
  cbn [fst snd] in *. now rewrite !printable_ascii_app, Hk, json_dumps_printable.
Qed.

Lemma options_cmd_printable_witness :
  printable_ascii
    (options_cmd [("a", JInt (-1));
                  ("b", JList [JStr (String (ascii_of_N 233) newline); JNull])])
    = true.
Proof.
  apply (options_cmd_printable
           [("a", JInt (-1));
            ("b", JList [JStr (String (ascii_of_N 233) newline); JNull])]).
  repeat constructor.
Defined.

Lemma count_char_app (c : ascii) (a b : string) :
  count_char c (a +:+ b) = count_char c a + count_char c b.
Proof.
  induction a as [|x a IH]; [reflexivity|].
  change (String x a +:+ b) with (String x (a +:+ b)).
  cbn [count_char]. rewrite IH. lia.
Qed.

Lemma spaced_no_newline (tokens : list string) :
  Forall (fun t => count_char (ascii_of_N 10) t = 0) tokens ->
  count_char (ascii_of_N 10) (spaced tokens) = 0.
Proof.
  induction 1 as [|t [|u rest] Ht Hrest IH]; [reflexivity | exact Ht |].
  change (spaced (t :: u :: rest)) with (t +:+ " " +:+ spaced (u :: rest)).
  rewrite !count_char_app, Ht, IH. reflexivity.
Qed.

(** X21.  When no token holds a line feed, the text written to the
    temporary file has one line feed less than there are sentences (none
    for no sentence): one line per sentence, the last one unterminated. *)
Theorem staged_text_lines (sentences : list (list string)) :
  newline_free sentences ->
  count_char (ascii_of_N 10)
    (str_join newline (List.map (str_join " ") sentences)) =
  length sentences - 1.
Proof.
  intros Hfree. rewrite str_join_staged_text.
  induction Hfree as [|s [|s' rest] Hs Hrest IH]; [reflexivity | |].
  - cbn [staged_text length]. now rewrite spaced_no_newline.
  - change (staged_text (s :: s' :: rest))
      with (spaced s +:+ newline +:+ staged_text (s' :: rest)).
    rewrite !count_char_app, spaced_no_newline, IH by assumption.
    cbn. lia.
Qed.

Lemma staged_text_lines_witness :
  count_char (ascii_of_N 10)
    (str_join newline (List.map (str_join " ") [["a"; "b"]; []; ["c"]])) = 2.
Proof.
  apply (staged_text_lines [["a"; "b"]; []; ["c"]]).
  repeat constructor.
Defined.

(** ** The test fixture *)

Lemma could_not_find_corpora_format arg :
  str_mod "Could not find '%s' (tried using the STANFORD_SEGMENTER environment variable)" arg =
  FmtText ("Could not find '" +:+ arg +:+
           "' (tried using the STANFORD_SEGMENTER environment variable)").
Proof. reflexivity. Qed.

Lemma string_app_nil_r (s : string) : s +:+ "" = s.
Proof.
  induction s as [|c s IH]; [reflexivity|].
  change (String c (s +:+ "") = String c s). now rewrite IH.
Qed.

Lemma skipped_format arg :
  str_mod "Tests for nltk.tokenize.stanford_segmenter skipped: %s" arg =
  FmtText ("Tests for nltk.tokenize.stanford_segmenter skipped: " +:+ arg).
Proof.
  change (FmtText ("Tests for nltk.tokenize.stanford_segmenter skipped: " +:+
                   (arg +:+ "")) = 
          FmtText ("Tests for nltk.tokenize.stanford_segmenter skipped: " +:+ arg)).
  now rewrite string_app_nil_r.
Qed.

(** Split on the next lookup or handler, keeping the handler's message. *)
Ltac setup_case :=
  match goal with
  | |- context [find_jar ?H ?n ?p ?ev] =>
      destruct (find_jar H n p ev) as [?j|?e] eqn:?
  | |- context [find_file ?H ?n ?sp ?ev] =>
      destruct (find_file H n sp ev) as [?p|?e] eqn:?
  | |- context [find_dir ?H ?n ?ev] =>
      destruct (find_dir H n ev) as [?p|?e] eqn:?
  | |- context [decide (exn_class ?e = LookupError)] =>
      destruct (decide (exn_class e = LookupError))
  end; py_unfold; cbn [snd fst exn_class exn_msg is_ok andb].

(** X22.  [setup_module] returns exactly when the two jars, the Arabic
    model, the dictionary, the corpora directory and the Chinese model are
    all found.  When it raises [SkipTest], the message is the fixed prefix
    followed by the message of the [LookupError] that stopped it; and the
    exceptions it lets through are never [LookupError]s. *)
Theorem setup_module_outcome (H : Host) :
  (setup_module H = SetupPassed <->
     is_ok (segmenter_jar_lookup H default_args) &&
     is_ok (slf4j_jar_lookup H default_args) &&
     is_ok (model_lookup H "arabic-segmenter-atb+bn+arztrain.ser.gz") &&
     is_ok (dict_lookup H) && is_ok (corpora_lookup H) &&
     is_ok (model_lookup H "pku.gz") = true) /\
  (forall msg, setup_module H = SkipTest msg ->
     exists detail,
       msg = "Tests for nltk.tokenize.stanford_segmenter skipped: " +:+ detail) /\
  (forall e, setup_module H = SetupRaised e -> exn_class e <> LookupError).
Proof.
  unfold setup_module, __init__, default_config, segmenter_jar_lookup,
    slf4j_jar_lookup, model_lookup, dict_lookup, corpora_lookup, raise_formatted.
  change (path_to_jar default_args) with (@None string).
  change (path_to_slf4j default_args) with (@None string).
  change (String.eqb "ar" "ar") with true.
  change (String.eqb "zh" "ar") with false.
  change (String.eqb "zh" "zh") with true.
  rewrite !could_not_find_models_format, !could_not_find_corpora_format.
  py_unfold. cbn [snd fst exn_class exn_msg is_ok andb].
  repeat setup_case;
    rewrite ?skipped_format;
    (split; [split; intros; (reflexivity || discriminate)|]);
    (split; [intros msg [= <-]; eauto | intros e' [= <-]; assumption])
    || (split; intros ? [=]).
Qed.

Lemma setup_module_outcome_witness :
  setup_module stocked_host = SetupPassed /\
  exists detail,
    "Tests for nltk.tokenize.stanford_segmenter skipped: Could not find 'arabic-segmenter-atb+bn+arztrain.ser.gz' (tried using env. variables STANFORD_MODELS and <STANFORD_SEGMENTER>/data/)"
    = "Tests for nltk.tokenize.stanford_segmenter skipped: " +:+ detail.
Proof.
  split.
  - apply (proj2 (proj1 (setup_module_outcome stocked_host))). reflexivity.
  - apply (proj1 (proj2 (setup_module_outcome no_dict_host))). reflexivity.
Defined.

(** ** The corpora directory of ['zh'] *)

(** X23.  When ['zh'] finds the dictionary and the corpora-directory
    lookup raises, the call raises whatever the model lookup would find: a
    [LookupError] becomes a [LookupError] naming [./data/], any other
    exception passes through unchanged.  The dictionary found stays in the
    object, without a corpora directory. *)
Theorem default_config_zh_corpora_failure (H : Host) (m : Machine)
    (d : string) (e : exn) :
  dict_lookup H = Ok d ->
  corpora_lookup H = Raise e ->
  let r := default_config H "zh" m in
  r.2 = Raise (if decide (exn_class e = LookupError)
               then Exn LookupError
                      "Could not find './data/' (tried using the STANFORD_SEGMENTER environment variable)"
               else e) /\
  _dict (this r.1) = Some d /\
  _sihan_corpora_dict (this r.1) = None /\
  _sihan_post_processing (this r.1) = "true".
Proof.
  unfold dict_lookup, corpora_lookup, default_config. intros Hd Hc.
  change (String.eqb "zh" "ar") with false.
  change (String.eqb "zh" "zh") with true.
  py_unfold. rewrite Hd. py_unfold. rewrite Hc. py_unfold.
  destruct (decide (exn_class e = LookupError)); [|auto].
  unfold raise_formatted. rewrite could_not_find_corpora_format.
  py_unfold. cbn. auto.
Qed.

Lemma default_config_zh_corpora_failure_witness :
  (default_config no_corpora_host "zh" (boot no_corpora_host plain_segmenter)).2 =
    Raise (Exn LookupError
      "Could not find './data/' (tried using the STANFORD_SEGMENTER environment variable)").
Proof.
  apply (default_config_zh_corpora_failure no_corpora_host
           (boot no_corpora_host plain_segmenter)
           "/opt/segmenter/data/dict-chris6.ser.gz"
           (Exn LookupError "NLTK was unable to find ./data/")).
  - reflexivity.
  - reflexivity.
Defined.

(** ** The command line as built *)

Lemma default_config_keeps_options_cmd (H : Host) (lang : string) (m : Machine) :
  _options_cmd (this (default_config H lang m).1) = _options_cmd (this m).
Proof.
  unfold default_config. lang_cases lang; py_cases_uniform; reflexivity.
Qed.

Lemma segment_sents_keeps_options_cmd (H : Host) (sentences : list (list string))
    (m : Machine) :
  _options_cmd (this (segment_sents H sentences m).1) = _options_cmd (this m).
Proof.
  unfold segment_sents. py_unfold.
  destruct (stage_input_run H sentences m) as (Hthis & _).
  destruct (stage_input H sentences m) as [m1 [p|e]]; cbn [fst snd] in *;
    [|now rewrite Hthis].
  match goal with |- context [_execute H ?c m1] =>
    destruct (execute_run H c m1) as (Ht & _);
    destruct (_execute H c m1) as [m2 [out|e]] end;
    py_unfold; cbn [fst snd] in *; [|now rewrite Ht, Hthis].
  unfold os_unlink.
  destruct (_input_file_path (this m2)) as [q|]; [destruct (files m2 !! q)|];
    cbn [fst this with_files]; now rewrite Ht, Hthis.
Qed.

(** Using an object never changes its options text. *)
Lemma in_use_options_cmd (H : Host) (a : InitArgs) (m : Machine) :
  in_use H a m ->
  _options_cmd (this m) =
    serialized_options (match options a with Some o => o | None => [] end).
Proof.
  induction 1 as [s fs ro la Hinit | lang m _ IH | input m _ IH | sentences m _ IH].
  - exact (init_options_cmd H a s Hinit).
  - now rewrite default_config_keeps_options_cmd.
  - destruct (segment_file_frame H input m) as [-> _]. exact IH.
  - now rewrite segment_sents_keeps_options_cmd.
Qed.

(** The commands handed to the launcher, entry point by entry point. *)
Lemma segment_file_argv (H : Host) (input : option string) (m : Machine) :
  List.map argv (new_launches (segment_file H input) m) =
    [build_command (this m) input].
Proof. rewrite segment_file_launches. reflexivity. Qed.

Lemma segment_sents_argv (H : Host) (sentences : list (list string)) (m : Machine) :
  is_ok (stage_input H sentences m).2 = true ->
  List.map argv (new_launches (segment_sents H sentences) m) =
    [build_command (this m) (Some (mkstemp_name H (files m)))].
Proof. intros Hok. rewrite segment_sents_launches, Hok. reflexivity. Qed.

Lemma occurrences_app (x : option string) (l k : list (option string)) :
  occurrences x (l ++ k) = occurrences x l + occurrences x k.
Proof. unfold occurrences. now rewrite List.filter_app, length_app. Qed.

(** The options text of a non-empty mapping holds an equals sign, so it is
    not the name of an option. *)
Lemma serialized_options_has_equals kv rest :
  1 <= count_char "=" (serialized_options (kv :: rest)).
Proof.
  destruct kv as [k v]. destruct rest as [|kv' rest]; cbn [serialized_options];
    rewrite count_char_app;
    match goal with |- context [count_char "=" ("=" +:+ ?t)] =>
      change (count_char "=" ("=" +:+ t)) with (S (count_char "=" t)) end; lia.
Qed.

Lemma serialized_options_not_a_name kv rest :
  Some (serialized_options (kv :: rest)) <> Some "-options".
Proof.
  intros E.
  assert (serialized_options (kv :: rest) = "-options") as Heq by congruence.
  pose proof (serialized_options_has_equals kv rest) as Hc.
  rewrite Heq in Hc. vm_compute in Hc. lia.
Qed.

(** C8, as stated, fails: an object without corpora directory whose model
    path is the string [-serDictionary] puts that string in the command. *)
Lemma flag_named_model_is_in_command :
  ~ (forall (H : Host) (m : Machine) (input : option string) (l : Launch),
       _sihan_corpora_dict (this m) = None ->
       l ∈ new_launches (segment_file H input) m ->
       Some "-serDictionary" ∉ argv l).
Proof.
  intros C.
  pose (m := boot stocked_host (set_model (Some "-serDictionary") plain_segmenter)).
  apply (C stocked_host m (Some "test.simp.utf8")
           {| argv := build_command (this m) (Some "test.simp.utf8");
              classpath := _stanford_jar (this m);
              launch_options := java_options (this m) |}).
  - reflexivity.
  - rewrite segment_file_launches. apply list_elem_of_here.
  - vm_compute. do 2 apply list_elem_of_further. apply list_elem_of_here.
Qed.

(** C8, as amended.  [segment_file] hands the launcher one command, and so
    does [segment_sents] once its input is staged: entry point, model,
    whitespace flag and text file, then the three Chinese options with the
    dictionary, the corpora directory and the post-processing flag when
    the object has a corpora directory and nothing when it has none, then
    the encoding and the options.  Without a corpora directory no option of
    the command is named [-serDictionary], [-sighanCorporaDict] or
    [-sighanPostProcessing], and none of these strings is in the command
    unless one of the values the object passes is that very string. *)
Theorem chinese_options_appended (H : Host) (m : Machine)
    (input : option string) (sentences : list (list string)) :
  let block :=
    match _sihan_corpora_dict (this m) with
    | Some d =>
        [ Some "-serDictionary"; _dict (this m);
          Some "-sighanCorporaDict"; Some d;
          Some "-sighanPostProcessing"; Some (_sihan_post_processing (this m)) ]
    | None => []
    end in
  let command i :=
    ([ _java_class (this m);
       Some "-loadClassifier"; _model (this m);
       Some "-keepAllWhitespaces"; Some (_keep_whitespaces (this m));
       Some "-textFile"; i ] ++
     block ++
     [ Some "-inputEncoding"; _encoding (this m) ] ++
     (if _options_cmd (this m) is String _ _
      then [ Some "-options"; Some (_options_cmd (this m)) ]
      else []))%list in
  List.map argv (new_launches (segment_file H input) m) = [command input] /\
  (is_ok (stage_input H sentences m).2 = true ->
   List.map argv (new_launches (segment_sents H sentences) m) =
     [command (Some (mkstemp_name H (files m)))]) /\
  (forall i, chinese_options (command i) = pair_up block) /\
  (_sihan_corpora_dict (this m) = None ->
   forall i n, n ∈ chinese_option_names -> n ∉ plain_values (this m) i ->
               n ∉ command i).
Proof.
  intros block command.
  assert (forall i, command i = build_command (this m) i) as Hcmd.
  { intros i. subst command block. unfold build_command.
    destruct (_sihan_corpora_dict (this m)); reflexivity. }
  split; [rewrite Hcmd; apply segment_file_argv|].
  split; [intros Hok; rewrite Hcmd; now apply segment_sents_argv|].
  split.
  - intros i. rewrite Hcmd, chinese_options_build_command. subst block.
    destruct (_sihan_corpora_dict (this m)); reflexivity.
  - intros Hnone i n Hn Hvalues Hin. apply Hvalues. clear Hvalues.
    subst command block. rewrite Hnone in Hin. unfold plain_values.
    unfold chinese_option_names in Hn.
    destruct (_options_cmd (this m)) as [|c oc]; cbn [app] in Hin;
      repeat (apply elem_of_cons in Hin as [Hin|Hin];
              [first [ subst n; repeat constructor; fail
                     | exfalso; subst n;
                       repeat (apply elem_of_cons in Hn as [Hn|Hn];
                               [discriminate Hn|]);
                       inversion Hn ] |]);
      inversion Hin.
Qed.

Lemma chinese_options_appended_witness :
  List.map argv
    (new_launches (segment_file stocked_host (Some "test.simp.utf8")) chinese_machine)
    = [argv chinese_launch] /\
  List.map argv
    (new_launches (segment_sents stocked_host [["a"; "b"]; ["c"]]) chinese_machine)
    = [ [ Some "edu.stanford.nlp.ie.crf.CRFClassifier";
          Some "-loadClassifier"; Some "/opt/segmenter/data/pku.gz";
          Some "-keepAllWhitespaces"; Some "false";
          Some "-textFile"; Some "/tmp/tmp0";
          Some "-serDictionary"; Some "/opt/segmenter/data/dict-chris6.ser.gz";
          Some "-sighanCorporaDict"; Some "/opt/segmenter/./data/";
          Some "-sighanPostProcessing"; Some "true";
          Some "-inputEncoding"; Some "UTF-8" ] ] /\
  Some "-serDictionary" ∉
    [ None; Some "-loadClassifier"; None;
      Some "-keepAllWhitespaces"; Some "false";
      Some "-textFile"; Some "test.simp.utf8";
      Some "-inputEncoding"; Some "UTF-8" ].
Proof.
  destruct (chinese_options_appended stocked_host chinese_machine
              (Some "test.simp.utf8") [["a"; "b"]; ["c"]]) as (H1 & H2 & _).
  destruct (chinese_options_appended stocked_host
              (boot stocked_host plain_segmenter)
              (Some "test.simp.utf8") []) as (_ & _ & _ & H4).
  split; [|split].
  - etrans; [exact H1 | vm_compute; reflexivity].
  - etrans; [apply H2; vm_compute; reflexivity | vm_compute; reflexivity].
  - apply (H4 eq_refl (Some "test.simp.utf8") (Some "-serDictionary")).
    + apply list_elem_of_here.
    + intros Hin.
      repeat (apply elem_of_cons in Hin as [Hin|Hin]; [discriminate Hin|]).
      inversion Hin.
Defined.

(** C9, as stated, fails: given a text file that is itself called
    [-options], the command holds that string twice. *)
Lemma file_named_options_is_counted :
  ~ (forall (H : Host) (a : InitArgs) (m : Machine) (input : option string)
            (l : Launch) kv rest,
       options a = Some (kv :: rest) ->
       in_use H a m ->
       l ∈ new_launches (segment_file H input) m ->
       occurrences (Some "-options") (argv l) = 1).
Proof.
  intros C.
  specialize (C stocked_host options_args options_machine (Some "-options")
                {| argv := build_command (this options_machine) (Some "-options");
                   classpath := _stanford_jar (this options_machine);
                   launch_options := java_options (this options_machine) |}
                ("a", JInt 1) [("b", JStr "x")] eq_refl).
  assert (in_use stocked_host options_args options_machine) as Huse.
  { apply (in_use_init stocked_host options_args
             (match __init__ stocked_host options_args with
              | Ok s => s
              | Raise _ => plain_segmenter
              end)).
    reflexivity. }
  specialize (C Huse).
  assert (occurrences (Some "-options")
            (build_command (this options_machine) (Some "-options")) = 1) as Hone.
  { apply C. rewrite segment_file_launches. apply list_elem_of_here. }
  vm_compute in Hone. discriminate Hone.
Qed.

(** C9, as amended.  On an object built by the constructor, fresh or used
    since, [segment_file] hands the launcher one command, and so does
    [segment_sents] once its input is staged.  With a non-empty options
    mapping the command ends with [-options] and the entries as
    [key=jsonValue] in insertion order, a comma between two entries and
    none after the last: it has exactly one option of that name, and the
    string [-options] occurs once more than in the part before, that is,
    elsewhere only where a value the object passes is that very string.
    With an empty mapping, or none, nothing is appended. *)
Theorem options_appended (H : Host) (a : InitArgs) (m : Machine)
    (input : option string) (sentences : list (list string)) :
  in_use H a m ->
  let opts := match options a with Some o => o | None => [] end in
  let appended :=
    match opts with
    | [] => []
    | _ :: _ => [ Some "-options"; Some (serialized_options opts) ]
    end in
  let before i :=
    ([ _java_class (this m);
       Some "-loadClassifier"; _model (this m);
       Some "-keepAllWhitespaces"; Some (_keep_whitespaces (this m));
       Some "-textFile"; i ] ++
     match _sihan_corpora_dict (this m) with
     | Some d =>
         [ Some "-serDictionary"; _dict (this m);
           Some "-sighanCorporaDict"; Some d;
           Some "-sighanPostProcessing"; Some (_sihan_post_processing (this m)) ]
     | None => []
     end ++
     [ Some "-inputEncoding"; _encoding (this m) ])%list in
  List.map argv (new_launches (segment_file H input) m) =
    [(before input ++ appended)%list] /\
  (is_ok (stage_input H sentences m).2 = true ->
   List.map argv (new_launches (segment_sents H sentences) m) =
     [(before (Some (mkstemp_name H (files m))) ++ appended)%list]) /\
  (forall i,
     option_values "-options" (before i ++ appended) =
       match opts with
       | [] => []
       | _ :: _ => [Some (serialized_options opts)]
       end) /\
  (forall i,
     occurrences (Some "-options") (before i ++ appended) =
       occurrences (Some "-options") (before i) +
       match opts with [] => 0 | _ :: _ => 1 end).
Proof.
  intros Huse opts appended before.
  pose proof (in_use_options_cmd H a m Huse) as Hoc. fold opts in Hoc.
  assert (forall i, (before i ++ appended)%list = build_command (this m) i) as Hcmd.
  { intros i. subst before appended. unfold build_command. rewrite Hoc.
    destruct opts as [|kv rest].
    - cbn [serialized_options].
      destruct (_sihan_corpora_dict (this m)); rewrite <- ?app_assoc; reflexivity.
    - destruct (serialized_options_cons kv rest) as (c & t & ->).
      destruct (_sihan_corpora_dict (this m)); rewrite <- ?app_assoc; reflexivity. }
  split; [rewrite Hcmd; apply segment_file_argv|].
  split; [intros Hok; rewrite Hcmd; now apply segment_sents_argv|].
  split.
  - intros i. rewrite Hcmd, option_values_build_command, Hoc.
    destruct opts as [|kv rest]; [reflexivity|].
    destruct (serialized_options_cons kv rest) as (c & t & ->). reflexivity.
  - intros i. rewrite occurrences_app. f_equal. subst appended.
    destruct opts as [|kv rest]; [reflexivity|].
    unfold occurrences. cbn [List.filter].
    rewrite (bool_decide_eq_true_2 _ (eq_refl (Some "-options"))).
    rewrite (bool_decide_eq_false_2 _ (serialized_options_not_a_name kv rest)).
    reflexivity.
Qed.

Lemma options_appended_witness :
  serialized_options [("a", JInt 1); ("b", JStr "x")] =
    "a=1,b=" +:+ String dquote "x" +:+ String dquote "" /\
  List.map argv
    (new_launches (segment_file stocked_host (Some "test.simp.utf8"))
       (segment_sents stocked_host [["a"; "b"]; ["c"]] options_machine).1)
    = [argv options_launch] /\
  option_values "-options" (argv options_launch) =
    [Some ("a=1,b=" +:+ String dquote "x" +:+ String dquote "")] /\
  occurrences (Some "-options") (argv options_launch) = 1.
Proof.
  assert (in_use stocked_host options_args
            (segment_sents stocked_host [["a"; "b"]; ["c"]] options_machine).1)
    as Huse.
  { apply in_use_segment_sents.
    apply (in_use_init stocked_host options_args
             (match __init__ stocked_host options_args with
              | Ok s => s
              | Raise _ => plain_segmenter
              end)).
    reflexivity. }
  destruct (options_appended stocked_host options_args _
              (Some "test.simp.utf8") [] Huse) as (H1 & _ & H3 & H4).
  split; [reflexivity|]. split; [|split].
  - etrans; [exact H1 | vm_compute; reflexivity].
  - etrans; [|etrans; [exact (H3 (Some "test.simp.utf8")) | vm_compute; reflexivity]].
    vm_compute. reflexivity.
  - etrans; [|etrans; [exact (H4 (Some "test.simp.utf8")) | vm_compute; reflexivity]].
    vm_compute. reflexivity.
Defined.
